(** * nanobot.agent.context: a shallow embedding of the context builder

    The module assembles the system prompt and the message list handed to a
    chat model.  Python values are embedded as follows.

    - [str] is a Rocq [string] holding the UTF-8 encoding of the text.
      Concatenation and [join] commute with the encoding, and the byte-wise
      lexicographic order on UTF-8 coincides with Python's code point order,
      so [sorted] on names is [merge_sort] over [String.le].
    - [bytes] is [list byte].
    - [dict[str, Any]] is an insertion-ordered association list [dict];
      [Any] is the tagged union [value].
    - An optional argument [x: T | None = None] is an [option T].
    - A call that may raise returns a [result]. *)

From Stdlib Require Import NArith ZArith List Ascii String Strings.Byte DecimalString.
From stdpp Require Import base option list strings gmap sorting.
Import ListNotations.

Local Open Scope string_scope.
Local Open Scope list_scope.

(** ** Python primitives *)

Inductive exn : Type :=
| KeyError (key : string)
| FileNotFoundError (path : string)
| IsADirectoryError (path : string)
| PermissionError (path : string)
| OSError (path : string)
| UnicodeDecodeError (path : string).

Inductive result (A : Type) : Type :=
| Ok (a : A)
| Raise (e : exn).

Arguments Ok {A} a.
Arguments Raise {A} e.

#[global] Instance result_ret : MRet result := fun A a => Ok a.

#[global] Instance result_bind : MBind result := fun A B k m =>
  match m with
  | Ok a => k a
  | Raise e => Raise e
  end.

(** [for x in l: acc = body(acc, x)] with a body that may raise. *)
Fixpoint for_each {A S : Type} (body : S -> A -> result S) (l : list A) (acc : S)
  : result S :=
  match l with
  | [] => Ok acc
  | x :: l' => acc' ← body acc x; for_each body l' acc'
  end.

#[warnings="-register-all"]
Inductive value : Type :=
| VNone
| VBool (b : bool)
| VInt (z : Z)
| VStr (s : string)
| VList (l : list value)
| VDict (d : list (string * value)).

Definition dict : Type := list (string * value).

Fixpoint dict_get (k : string) (d : dict) : option value :=
  match d with
  | [] => None
  | (k', v) :: d' => if String.eqb k k' then Some v else dict_get k d'
  end.

(** [d[k] = v]: overwrite in place, or append a new key last. *)
Fixpoint dict_set (k : string) (v : value) (d : dict) : dict :=
  match d with
  | [] => [(k, v)]
  | (k', v') :: d' =>
      if String.eqb k k' then (k, v) :: d' else (k', v') :: dict_set k v d'
  end.

(** Truth value of a [str]: non-empty. *)
Definition str_truthy (s : string) : bool :=
  match s with
  | EmptyString => false
  | String _ _ => true
  end.

(** Truth value of a [list]: non-empty. *)
Definition list_truthy {A : Type} (l : list A) : bool :=
  match l with
  | [] => false
  | _ :: _ => true
  end.

(** Truth value of [x: T | None]: [None] is false, otherwise that of [x]. *)
Definition opt_truthy {A : Type} (truthy : A -> bool) (o : option A) : bool :=
  match o with
  | None => false
  | Some x => truthy x
  end.

(** [sep.join(parts)] *)
Definition join (sep : string) (parts : list string) : string :=
  String.concat sep parts.

(** [s.startswith(prefix)] *)
Definition startswith (s prefix : string) : bool := String.prefix prefix s.

Definition nl : string := String (ascii_of_nat 10) EmptyString.
Definition dquote : string := String (ascii_of_nat 34) EmptyString.

(** [base64.b64encode(data).decode()], RFC 4648 with padding. *)
Definition b64_alphabet : string :=
  "ABCDEFGHIJKLMNOPQRSTUVWXYZabcdefghijklmnopqrstuvwxyz0123456789+/".

Definition b64_char (n : N) : ascii :=
  match String.get (N.to_nat (N.land n 63)) b64_alphabet with
  | Some c => c
  | None => "="%char
  end.

Definition b64_pad : ascii := "="%char.

Fixpoint b64encode (data : list byte) : string :=
  match data with
  | [] => ""
  | [a] =>
      let n := N.shiftl (Byte.to_N a) 16 in
      String (b64_char (N.shiftr n 18)) (String (b64_char (N.shiftr n 12))
        (String b64_pad (String b64_pad "")))
  | [a; b] =>
      let n := N.lor (N.shiftl (Byte.to_N a) 16) (N.shiftl (Byte.to_N b) 8) in
      String (b64_char (N.shiftr n 18)) (String (b64_char (N.shiftr n 12))
        (String (b64_char (N.shiftr n 6)) (String b64_pad "")))
  | a :: b :: c :: rest =>
      let n := N.lor (N.lor (N.shiftl (Byte.to_N a) 16) (N.shiftl (Byte.to_N b) 8))
                     (Byte.to_N c) in
      String (b64_char (N.shiftr n 18)) (String (b64_char (N.shiftr n 12))
        (String (b64_char (N.shiftr n 6)) (String (b64_char n) (b64encode rest))))
  end.

(** Well-formed UTF-8 (Unicode Standard, table 3-7): what the strict [utf-8]
    codec accepts. *)
Definition between (lo hi b : N) : bool := (lo <=? b)%N && (b <=? hi)%N.

Fixpoint utf8_valid_from (l : list N) : bool :=
  match l with
  | [] => true
  | b0 :: r0 =>
      if (b0 <=? 127)%N then utf8_valid_from r0
      else
        match r0 with
        | [] => false
        | b1 :: r1 =>
            if between 194 223 b0 then between 128 191 b1 && utf8_valid_from r1
            else
              match r1 with
              | [] => false
              | b2 :: r2 =>
                  if between 224 239 b0 then
                    (if (b0 =? 224)%N then between 160 191 b1
                     else if (b0 =? 237)%N then between 128 159 b1
                     else between 128 191 b1)
                    && between 128 191 b2 && utf8_valid_from r2
                  else
                    match r2 with
                    | [] => false
                    | b3 :: r3 =>
                        between 240 244 b0
                        && (if (b0 =? 240)%N then between 144 191 b1
                            else if (b0 =? 244)%N then between 128 143 b1
                            else between 128 191 b1)
                        && between 128 191 b2 && between 128 191 b3
                        && utf8_valid_from r3
                    end
              end
        end
  end.

Definition utf8_valid (data : list byte) : bool :=
  utf8_valid_from (map Byte.to_N data).

(** Text mode with the default [newline=None]: [\r\n] and a lone [\r] are read
    as [\n]. *)
Fixpoint universal_newlines (s : string) : string :=
  match s with
  | EmptyString => EmptyString
  | String c rest =>
      if Ascii.eqb c (ascii_of_nat 13) then
        match rest with
        | String c' rest' =>
            if Ascii.eqb c' (ascii_of_nat 10)
            then String (ascii_of_nat 10) (universal_newlines rest')
            else String (ascii_of_nat 10) (universal_newlines rest)
        | EmptyString => String (ascii_of_nat 10) EmptyString
        end
      else String c (universal_newlines rest)
  end.

(** ** The host: file system, MIME table, clock, platform

    The file system is a snapshot.  Looking a path up ([os.stat]) either
    fails with an [OSError] that [pathlib] does not swallow (a name that is
    too long, a parent directory that may not be searched), or finds nothing,
    or finds a regular file or a directory.  A regular file is readable with
    its bytes, or is not readable. *)

Inductive node : Type :=
| RegularFile (data : list byte)
| UnreadableFile
| Directory.

Inductive weekday : Type :=
| Monday | Tuesday | Wednesday | Thursday | Friday | Saturday | Sunday.

(** The fields of [datetime.now()] that the prompt prints. *)
Record datetime : Type := {
  year : nat;
  month : nat;
  day : nat;
  hour : nat;
  minute : nat;
  day_of_week : weekday
}.

Record World : Type := {
  fs : string -> result (option node);
  (** [str(Path(p).expanduser().resolve())] *)
  resolve : string -> string;
  (** [mimetypes.guess_type(path)[0]] *)
  mimetypes_guess_type : string -> option string;
  (** [datetime.now()] *)
  datetime_now : datetime;
  (** [time.strftime("%Z")] *)
  time_tzname : string;
  (** [platform.system()], [platform.machine()], [platform.python_version()] *)
  platform_system : string;
  platform_machine : string;
  platform_python_version : string
}.

(** [Path(p).exists()] *)
Definition path_exists (w : World) (p : string) : result bool :=
  found ← fs w p;
  Ok (match found with
      | Some _ => true
      | None => false
      end).

(** [Path(p).is_file()] *)
Definition is_file (w : World) (p : string) : result bool :=
  found ← fs w p;
  Ok (match found with
      | Some (RegularFile _) | Some UnreadableFile => true
      | _ => false
      end).

(** [Path(p).read_bytes()] *)
Definition read_bytes (w : World) (p : string) : result (list byte) :=
  found ← fs w p;
  match found with
  | Some (RegularFile data) => Ok data
  | Some UnreadableFile => Raise (PermissionError p)
  | Some Directory => Raise (IsADirectoryError p)
  | None => Raise (FileNotFoundError p)
  end.

(** [Path(p).read_text(encoding="utf-8")] *)
Definition read_text (w : World) (p : string) : result string :=
  data ← read_bytes w p;
  if utf8_valid data
  then Ok (universal_newlines (string_of_list_byte data))
  else Raise (UnicodeDecodeError p).

(** [str(path / name)] for [dir = str(path)], which [pathlib] keeps
    normalised: the current directory is [.], and only a root ends in [/]. *)
Definition ends_with_slash (dir : string) : bool :=
  match String.get (String.length dir - 1) dir with
  | Some c => Ascii.eqb c "/"%char
  | None => false
  end.

Definition path_join (dir name : string) : string :=
  if String.eqb dir "." then name
  else if ends_with_slash dir then dir +:+ name
  else dir +:+ "/" +:+ name.

(** ** Media encoder *)

Definition image_url_block (mime b64 : string) : value :=
  VDict [("type", VStr "image_url");
         ("image_url", VDict [("url", VStr ("data:" +:+ mime +:+ ";base64," +:+ b64))])].

Definition text_block (text : string) : value :=
  VDict [("type", VStr "text"); ("text", VStr text)].

(** The guard of the loop body:
    [not p.is_file() or not mime or not mime.startswith("image/")];
    [is_file] is evaluated first and may raise. *)
Definition skipped (w : World) (path : string) : result bool :=
  let mime := mimetypes_guess_type w path in
  is_file w path ≫= fun file : bool =>
  Ok (negb file
      || negb (opt_truthy str_truthy mime)
      || negb (startswith (default "" mime) "image/")).

(** One iteration of [for path in media]; [default "" mime] is [mime] itself
    once the guard has excluded [None]. *)
Definition encode_path (w : World) (images : list value) (path : string)
  : result (list value) :=
  let mime := mimetypes_guess_type w path in
  skipped w path ≫= fun skip : bool =>
  if skip then Ok images
  else
    data ← read_bytes w path;
    let b64 := b64encode data in
    Ok (images ++ [image_url_block (default "" mime) b64]).

Definition _build_user_content (w : World) (text : string) (media : option (list string))
  : result value :=
  if negb (opt_truthy list_truthy media) then Ok (VStr text)
  else
    images ← for_each (encode_path w) (default [] media) [];
    if negb (list_truthy images) then Ok (VStr text)
    else Ok (VList (images ++ [text_block text])).

(** ** Message mutators *)

Definition add_assistant_message
    (messages : list dict)
    (content : option string)
    (tool_calls : option (list value))
    (reasoning_content : option string) : list dict :=
  let msg : dict :=
    [("role", VStr "assistant");
     ("content", VStr (match content with
                       | Some c => if str_truthy c then c else ""
                       | None => ""
                       end))] in
  let msg :=
    match tool_calls with
    | Some tc => if list_truthy tc then dict_set "tool_calls" (VList tc) msg else msg
    | None => msg
    end in
  let msg :=
    match reasoning_content with
    | Some r => if str_truthy r then dict_set "reasoning_content" (VStr r) msg else msg
    | None => msg
    end in
  messages ++ [msg].

Definition add_tool_result
    (messages : list dict) (tool_call_id tool_name result : string) : list dict :=
  messages ++ [[("role", VStr "tool");
                ("tool_call_id", VStr tool_call_id);
                ("name", VStr tool_name);
                ("content", VStr result)]].

(** ** Collaborators

    [MemoryStore] and [SkillsLoader] are used through their methods only; a
    collaborator is given by what its methods return.  A collaborator call,
    or a path resolution, that raises aborts the build at that call; the
    model describes the builds in which these calls return. *)

Record MemoryStore : Type := {
  get_memory_context : string
}.

Record SkillsLoader : Type := {
  (** one [dict[str, str]] per skill, with its name under ["name"] *)
  list_skills : list (list (string * string));
  get_always_skills : list string;
  load_skills_for_context : list string -> string;
  build_skills_summary : string
}.

(** An element of [skills_list]: a plain name, or a catalog entry. *)
Inductive skill_ref : Type :=
| SkillName (name : string)
| SkillInfo (info : list (string * string)).

Fixpoint info_get (k : string) (info : list (string * string)) : option string :=
  match info with
  | [] => None
  | (k', v) :: info' => if String.eqb k k' then Some v else info_get k info'
  end.

(** [s["name"] if isinstance(s, dict) else s] *)
Definition skill_ref_name (s : skill_ref) : result string :=
  match s with
  | SkillInfo info =>
      match info_get "name" info with
      | Some name => Ok name
      | None => Raise (KeyError "name")
      end
  | SkillName name => Ok name
  end.

(** [sorted(set(names))] *)
Definition sorted_set (names : list string) : list string :=
  merge_sort String.le (elements (list_to_set names : gset string)).

(** ** Context builder *)

Record ContextBuilder : Type := {
  workspace : string;
  memory : MemoryStore;
  skills : SkillsLoader;
  no_xml_skills : bool
}.

Definition BOOTSTRAP_FILES : list string := ["AGENTS.md"; "SOUL.md"; "USER.md"].

Definition decimal (n : nat) : string := NilEmpty.string_of_uint (Nat.to_uint n).

Fixpoint zeros (n : nat) : string :=
  match n with
  | O => ""
  | S n' => "0" +:+ zeros n'
  end.

Definition zfill (width : nat) (s : string) : string :=
  zeros (width - String.length s) +:+ s.

Definition weekday_name (d : weekday) : string :=
  match d with
  | Monday => "Monday"
  | Tuesday => "Tuesday"
  | Wednesday => "Wednesday"
  | Thursday => "Thursday"
  | Friday => "Friday"
  | Saturday => "Saturday"
  | Sunday => "Sunday"
  end.

(** [dt.strftime("%Y-%m-%d %H:%M (%A)")] as glibc prints it: the year
    without padding, the other numbers on two digits, the weekday name of
    the C locale. *)
Definition strftime (dt : datetime) : string :=
  decimal (year dt) +:+ "-" +:+ zfill 2 (decimal (month dt)) +:+ "-"
  +:+ zfill 2 (decimal (day dt)) +:+ " " +:+ zfill 2 (decimal (hour dt)) +:+ ":"
  +:+ zfill 2 (decimal (minute dt)) +:+ " (" +:+ weekday_name (day_of_week dt) +:+ ")".

Definition _get_identity (w : World) (self : ContextBuilder) : string :=
  let now := strftime (datetime_now w) in
  let tz := if str_truthy (time_tzname w) then time_tzname w else "UTC" in
  let workspace_path := resolve w (workspace self) in
  let system := platform_system w in
  let runtime :=
    (if String.eqb system "Darwin" then "macOS" else system) +:+ " "
    +:+ platform_machine w +:+ ", Python " +:+ platform_python_version w in
  join nl
    ["#";
     "";
     "## Current Time";
     now +:+ " (" +:+ tz +:+ ")";
     "";
     "## Runtime";
     runtime;
     "";
     "## Workspace";
     "Your workspace is at: " +:+ workspace_path;
     "- Long-term memory: " +:+ workspace_path +:+ "/memory/MEMORY.md";
     "- History log: " +:+ workspace_path +:+ "/memory/HISTORY.md (grep-searchable)";
     "- Custom skills: " +:+ workspace_path +:+ "/skills/{skill-name}/SKILL.md";
     "When remembering something important, write to " +:+ workspace_path
       +:+ "/memory/MEMORY.md";
     "To recall past events, grep " +:+ workspace_path +:+ "/memory/HISTORY.md"].

(** One iteration of [for filename in self.BOOTSTRAP_FILES]. *)
Definition load_bootstrap_file (w : World) (self : ContextBuilder)
    (parts : list string) (filename : string) : result (list string) :=
  let file_path := path_join (workspace self) filename in
  path_exists w file_path ≫= fun found : bool =>
  if found then
    content ← read_text w file_path;
    Ok (parts ++ ["## " +:+ filename +:+ nl +:+ nl +:+ content])
  else Ok parts.

Definition _load_bootstrap_files (w : World) (self : ContextBuilder) : result string :=
  parts ← for_each (load_bootstrap_file w self) BOOTSTRAP_FILES [];
  Ok (if list_truthy parts then join (nl +:+ nl) parts else "").

Definition SEPARATOR : string := nl +:+ nl +:+ "---" +:+ nl +:+ nl.

Definition memory_section (memory : string) : string :=
  "# Memory" +:+ nl +:+ nl +:+ memory.

Definition skills_names_section (names : list string) : string :=
  "# Skills" +:+ nl +:+ nl +:+ "Available skills: " +:+ join ", " names +:+ nl.

Definition load_details_line (workspace_path skill_name : string) : string :=
  "Load details with read_file: " +:+ workspace_path +:+ "/skills/" +:+ skill_name
  +:+ "/SKILL.md" +:+ nl.

Definition active_skills_section (always_content : string) : string :=
  "# Active Skills" +:+ nl +:+ nl +:+ always_content.

Definition skills_summary_section (skills_summary : string) : string :=
  "# Skills" +:+ nl
  +:+ "    " +:+ nl
  +:+ "    The following skills extend your capabilities. To use a skill, read its SKILL.md file using the read_file tool."
  +:+ nl
  +:+ "    Skills with available=" +:+ dquote +:+ "false" +:+ dquote
  +:+ " need dependencies installed first - you can try installing them with apt/brew."
  +:+ nl
  +:+ "    " +:+ nl
  +:+ "    " +:+ skills_summary.

(** [skills_list = skill_names or self.skills.list_skills()] and
    [names = [s["name"] if isinstance(s, dict) else s for s in skills_list]]. *)
Definition skill_name_list (self : ContextBuilder) (skill_names : option (list string))
  : result (list string) :=
  let skills_list :=
    if opt_truthy list_truthy skill_names
    then SkillName <$> default [] skill_names
    else SkillInfo <$> list_skills (skills self) in
  mapM skill_ref_name skills_list.

(** The list [parts] of [build_system_prompt] when it reaches its [return]. *)
Definition build_system_prompt_parts (w : World) (self : ContextBuilder)
    (skill_names : option (list string)) : result (list string) :=
  let parts := [_get_identity w self] in
  bootstrap ← _load_bootstrap_files w self;
  let parts := if str_truthy bootstrap then parts ++ [bootstrap] else parts in
  let memory := get_memory_context (memory self) in
  let parts := if str_truthy memory then parts ++ [memory_section memory] else parts in
  if no_xml_skills self then
    names ← skill_name_list self skill_names;
    let names := sorted_set names in
    if list_truthy names then
      let workspace_path := resolve w (workspace self) in
      let parts := parts ++ [skills_names_section names] in
      Ok (foldl (fun parts skill_name =>
                   parts ++ [load_details_line workspace_path skill_name])
                parts names)
    else Ok parts
  else
    let always_skills := get_always_skills (skills self) in
    let parts :=
      if list_truthy always_skills then
        let always_content := load_skills_for_context (skills self) always_skills in
        if str_truthy always_content
        then parts ++ [active_skills_section always_content]
        else parts
      else parts in
    let skills_summary := build_skills_summary (skills self) in
    let parts :=
      if str_truthy skills_summary
      then parts ++ [skills_summary_section skills_summary]
      else parts in
    Ok parts.

Definition build_system_prompt (w : World) (self : ContextBuilder)
    (skill_names : option (list string)) : result string :=
  parts ← build_system_prompt_parts w self skill_names;
  Ok (join SEPARATOR parts).

Definition session_footer (channel chat_id : string) : string :=
  nl +:+ nl +:+ "## Current Session" +:+ nl +:+ "Channel: " +:+ channel +:+ nl
  +:+ "Chat ID: " +:+ chat_id.

Definition build_messages (w : World) (self : ContextBuilder)
    (history : list dict) (current_message : string)
    (skill_names : option (list string)) (media : option (list string))
    (channel chat_id : option string) : result (list dict) :=
  let messages : list dict := [] in
  system_prompt ← build_system_prompt w self skill_names;
  let system_prompt :=
    if opt_truthy str_truthy channel && opt_truthy str_truthy chat_id
    then system_prompt +:+ session_footer (default "" channel) (default "" chat_id)
    else system_prompt in
  let messages := messages ++ [[("role", VStr "system"); ("content", VStr system_prompt)]] in
  let messages := messages ++ history in
  user_content ← _build_user_content w current_message media;
  let messages := messages ++ [[("role", VStr "user"); ("content", user_content)]] in
  Ok messages.

(** ** Specification vocabulary

    Names for what the statements below talk about: the paths that survive the
    media filter, the parts of the prompt by origin, and the readings of the
    host that the prompt prints. *)

(** A path survives when the guard is evaluated and does not [continue]. *)
Definition survives (w : World) (path : string) : bool :=
  match skipped w path with
  | Ok skip => negb skip
  | Raise _ => false
  end.

(** The paths of [media] that survive, in order. *)
Definition surviving (w : World) (media : list string) : list string :=
  filter (fun path => survives w path = true) media.

(** Every path of [media] can be looked up, and every surviving one read. *)
Definition encodable (w : World) (media : list string) : bool :=
  forallb (fun path =>
             match skipped w path with
             | Ok true => true
             | Ok false => match read_bytes w path with
                           | Ok _ => true
                           | Raise _ => false
                           end
             | Raise _ => false
             end) media.

Definition file_data (w : World) (path : string) : list byte :=
  match fs w path with
  | Ok (Some (RegularFile data)) => data
  | _ => []
  end.

(** The image block built from a surviving path. *)
Definition image_block_of (w : World) (path : string) : value :=
  image_url_block (default "" (mimetypes_guess_type w path)) (b64encode (file_data w path)).

(** The titled section of one bootstrap file, when the file exists and reads
    as UTF-8 text. *)
Definition bootstrap_section (w : World) (self : ContextBuilder) (filename : string)
  : option string :=
  let file_path := path_join (workspace self) filename in
  match path_exists w file_path with
  | Ok true =>
      match read_text w file_path with
      | Ok content => Some ("## " +:+ filename +:+ nl +:+ nl +:+ content)
      | Raise _ => None
      end
  | _ => None
  end.

(** A bootstrap file is absent, or is there and reads as UTF-8 text. *)
Definition readable_or_absent (w : World) (self : ContextBuilder) (filename : string)
  : bool :=
  let file_path := path_join (workspace self) filename in
  match path_exists w file_path with
  | Ok true =>
      match read_text w file_path with
      | Ok _ => true
      | Raise _ => false
      end
  | Ok false => true
  | Raise _ => false
  end.

Definition bootstrap_exists (w : World) (self : ContextBuilder) (filename : string)
  : bool :=
  match path_exists w (path_join (workspace self) filename) with
  | Ok found => found
  | Raise _ => false
  end.

(** Identity, then the bootstrap and memory sections that are non-empty. *)
Definition leading_parts (w : World) (self : ContextBuilder) (bootstrap : string)
  : list string :=
  [_get_identity w self]
  ++ (if str_truthy bootstrap then [bootstrap] else [])
  ++ (if str_truthy (get_memory_context (memory self))
      then [memory_section (get_memory_context (memory self))] else []).

(** What compact mode appends for a sorted list of unique names. *)
Definition compact_skills_parts (workspace_path : string) (names : list string)
  : list string :=
  match names with
  | [] => []
  | _ :: _ => skills_names_section names :: (load_details_line workspace_path <$> names)
  end.

(** What progressive mode appends. *)
Definition progressive_skills_parts (self : ContextBuilder) : list string :=
  (if list_truthy (get_always_skills (skills self))
      && str_truthy (load_skills_for_context (skills self) (get_always_skills (skills self)))
   then [active_skills_section
           (load_skills_for_context (skills self) (get_always_skills (skills self)))]
   else [])
  ++ (if str_truthy (build_skills_summary (skills self))
      then [skills_summary_section (build_skills_summary (skills self))] else []).

Definition skills_parts (w : World) (self : ContextBuilder)
    (skill_names : option (list string)) : result (list string) :=
  if no_xml_skills self then
    names ← skill_name_list self skill_names;
    Ok (compact_skills_parts (resolve w (workspace self)) (sorted_set names))
  else Ok (progressive_skills_parts self).

(** The names of the whole catalog. *)
Definition catalog_names (self : ContextBuilder) : result (list string) :=
  mapM skill_ref_name (SkillInfo <$> list_skills (skills self)).


(** The system message of [build_messages]. *)
Definition system_message (text : string) : dict :=
  [("role", VStr "system"); ("content", VStr text)].

Definition user_message (content : value) : dict :=
  [("role", VStr "user"); ("content", content)].

(** Two worlds with the same files, path resolution and platform; only the
    clock may differ. *)
Definition same_host_state (w1 w2 : World) : Prop :=
  (forall p, fs w1 p = fs w2 p)
  /\ (forall p, resolve w1 p = resolve w2 p)
  /\ platform_system w1 = platform_system w2
  /\ platform_machine w1 = platform_machine w2
  /\ platform_python_version w1 = platform_python_version w2.

Definition same_clock (w1 w2 : World) : Prop :=
  datetime_now w1 = datetime_now w2 /\ time_tzname w1 = time_tzname w2.

(** Two builders with the same configuration and the same responses of the
    Memory and Skills collaborators. *)
Definition same_collaborators (b1 b2 : ContextBuilder) : Prop :=
  workspace b1 = workspace b2
  /\ no_xml_skills b1 = no_xml_skills b2
  /\ get_memory_context (memory b1) = get_memory_context (memory b2)
  /\ list_skills (skills b1) = list_skills (skills b2)
  /\ get_always_skills (skills b1) = get_always_skills (skills b2)
  /\ (forall l, load_skills_for_context (skills b1) l = load_skills_for_context (skills b2) l)
  /\ build_skills_summary (skills b1) = build_skills_summary (skills b2).

(** ** Callers of the mutators

    One turn of the agent loop appends an assistant message or a tool result;
    a run of the loop is a sequence of such turns. *)

Inductive turn : Type :=
| AssistantTurn (content : option string) (tool_calls : option (list value))
                (reasoning_content : option string)
| ToolResult (tool_call_id tool_name result : string).

Definition add_turn (messages : list dict) (t : turn) : list dict :=
  match t with
  | AssistantTurn content tool_calls reasoning_content =>
      add_assistant_message messages content tool_calls reasoning_content
  | ToolResult tool_call_id tool_name result =>
      add_tool_result messages tool_call_id tool_name result
  end.

Definition add_turns (messages : list dict) (turns : list turn) : list dict :=
  foldl add_turn messages turns.

(** The keys of a message, in insertion order. *)
Definition keys (d : dict) : list string := fst <$> d.

(** ** Variations of a host and of a builder *)

Definition with_system (w : World) (system : string) : World := {|
  fs := fs w;
  resolve := resolve w;
  mimetypes_guess_type := mimetypes_guess_type w;
  datetime_now := datetime_now w;
  time_tzname := time_tzname w;
  platform_system := system;
  platform_machine := platform_machine w;
  platform_python_version := platform_python_version w
|}.

Definition with_tzname (w : World) (tz : string) : World := {|
  fs := fs w;
  resolve := resolve w;
  mimetypes_guess_type := mimetypes_guess_type w;
  datetime_now := datetime_now w;
  time_tzname := tz;
  platform_system := platform_system w;
  platform_machine := platform_machine w;
  platform_python_version := platform_python_version w
|}.

Definition with_skills (self : ContextBuilder) (loader : SkillsLoader) : ContextBuilder := {|
  workspace := workspace self;
  memory := memory self;
  skills := loader;
  no_xml_skills := no_xml_skills self
|}.

(** The characters of a base64 text: the alphabet and the padding. *)
Definition b64_charset : list ascii :=
  list_ascii_of_string b64_alphabet ++ [b64_pad].

(** ** A sample workspace *)

Definition sample_fs (p : string) : result (option node) :=
  if String.eqb p "/ws/AGENTS.md"
  then Ok (Some (RegularFile (list_byte_of_string "Be kind.")))
  else if String.eqb p "/ws/USER.md" then Ok (Some (RegularFile (list_byte_of_string "Ada")))
  else if String.eqb p "/ws/pic.png" then Ok (Some (RegularFile [x89; x50; x4e; x47]))
  else if String.eqb p "/ws/notes.txt"
  then Ok (Some (RegularFile (list_byte_of_string "todo")))
  else if String.eqb p "/ws/locked.png" then Ok (Some UnreadableFile)
  else if String.eqb p "/ws/private/cat.png" then Raise (OSError "/ws/private/cat.png")
  else if String.eqb p "/ws" then Ok (Some Directory)
  else Ok None.

Definition sample_guess_type (p : string) : option string :=
  if String.eqb p "/ws/pic.png" then Some "image/png"
  else if String.eqb p "/ws/gone.png" then Some "image/png"
  else if String.eqb p "/ws/locked.png" then Some "image/png"
  else if String.eqb p "/ws/private/cat.png" then Some "image/png"
  else if String.eqb p "/ws/notes.txt" then Some "text/plain"
  else None.

Definition sample_world : World := {|
  fs := sample_fs;
  resolve := fun p => p;
  mimetypes_guess_type := sample_guess_type;
  datetime_now := {| year := 2026; month := 3; day := 7; hour := 9; minute := 5;
                     day_of_week := Saturday |};
  time_tzname := "CET";
  platform_system := "Darwin";
  platform_machine := "arm64";
  platform_python_version := "3.12.1"
|}.

(** The same host one minute later. *)
Definition sample_world_later : World := {|
  fs := sample_fs;
  resolve := fun p => p;
  mimetypes_guess_type := sample_guess_type;
  datetime_now := {| year := 2026; month := 3; day := 7; hour := 9; minute := 6;
                     day_of_week := Saturday |};
  time_tzname := "CET";
  platform_system := "Darwin";
  platform_machine := "arm64";
  platform_python_version := "3.12.1"
|}.

(** The same host with an empty MIME table. *)
Definition sample_world_no_mime : World := {|
  fs := sample_fs;
  resolve := fun p => p;
  mimetypes_guess_type := fun _ => None;
  datetime_now := {| year := 2026; month := 3; day := 7; hour := 9; minute := 5;
                     day_of_week := Saturday |};
  time_tzname := "CET";
  platform_system := "Darwin";
  platform_machine := "arm64";
  platform_python_version := "3.12.1"
|}.

(** A workspace without any file. *)
Definition empty_world : World := {|
  fs := fun _ => Ok None;
  resolve := fun p => p;
  mimetypes_guess_type := fun _ => None;
  datetime_now := {| year := 2026; month := 3; day := 7; hour := 9; minute := 5;
                     day_of_week := Saturday |};
  time_tzname := "";
  platform_system := "Linux";
  platform_machine := "x86_64";
  platform_python_version := "3.12.1"
|}.

(** A workspace where [AGENTS.md] is a directory and [SOUL.md] is not UTF-8. *)
Definition odd_fs (p : string) : result (option node) :=
  if String.eqb p "/odd/AGENTS.md" then Ok (Some Directory)
  else if String.eqb p "/bin/SOUL.md" then Ok (Some (RegularFile [xc3; x28]))
  else Ok None.

Definition odd_world : World := {|
  fs := odd_fs;
  resolve := fun p => p;
  mimetypes_guess_type := fun _ => None;
  datetime_now := {| year := 2026; month := 12; day := 31; hour := 23; minute := 59;
                     day_of_week := Thursday |};
  time_tzname := "UTC";
  platform_system := "Linux";
  platform_machine := "x86_64";
  platform_python_version := "3.12.1"
|}.

Definition sample_skills : SkillsLoader := {|
  list_skills := [[("name", "zeta"); ("path", "/ws/skills/zeta/SKILL.md")];
                  [("name", "alpha")]];
  get_always_skills := [];
  load_skills_for_context := fun _ => "";
  build_skills_summary := ""
|}.

Definition no_skills : SkillsLoader := {|
  list_skills := [];
  get_always_skills := [];
  load_skills_for_context := fun _ => "";
  build_skills_summary := ""
|}.

Definition compact_builder : ContextBuilder := {|
  workspace := "/ws";
  memory := {| get_memory_context := "" |};
  skills := sample_skills;
  no_xml_skills := true
|}.

Definition bare_builder : ContextBuilder := {|
  workspace := "/ws";
  memory := {| get_memory_context := "" |};
  skills := no_skills;
  no_xml_skills := false
|}.

Definition progressive_skills : SkillsLoader := {|
  list_skills := [[("name", "alpha")]];
  get_always_skills := ["core"];
  load_skills_for_context := fun l => if list_truthy l then "### core" else "";
  build_skills_summary := "<skills/>"
|}.

Definition progressive_builder : ContextBuilder := {|
  workspace := "/ws";
  memory := {| get_memory_context := "likes tea" |};
  skills := progressive_skills;
  no_xml_skills := false
|}.

(** A builder on the workspace whose [SOUL.md] is not UTF-8. *)
Definition soul_builder : ContextBuilder := {|
  workspace := "/bin";
  memory := {| get_memory_context := "" |};
  skills := no_skills;
  no_xml_skills := false
|}.

(** * Properties *)

(** ** The model at work *)

Example b64encode_hello : b64encode (list_byte_of_string "hello") = "aGVsbG8=".
Proof. reflexivity. Qed.

Example b64encode_padding :
  b64encode [xff] = "/w==" /\ b64encode [xff; xfe] = "//4="
  /\ b64encode [xff; xfe; xfd] = "//79".
Proof. repeat split; reflexivity. Qed.

Example utf8_valid_examples :
  utf8_valid [xe2; x98; x83] = true        (* U+2603 *)
  /\ utf8_valid [xc0; x80] = false         (* overlong *)
  /\ utf8_valid [xed; xa0; x80] = false    (* surrogate *)
  /\ utf8_valid [xf4; x90; x80; x80] = false (* above U+10FFFF *)
  /\ utf8_valid [xe2; x98] = false.        (* truncated *)
Proof. repeat split; reflexivity. Qed.

Example universal_newlines_crlf :
  universal_newlines ("a" +:+ String (ascii_of_nat 13) nl +:+ "b"
                      +:+ String (ascii_of_nat 13) "c")
  = "a" +:+ nl +:+ "b" +:+ nl +:+ "c".
Proof. reflexivity. Qed.

Example strftime_sample :
  strftime (datetime_now sample_world) = "2026-03-07 09:05 (Saturday)".
Proof. reflexivity. Qed.

Example strftime_early_year :
  strftime {| year := 999; month := 1; day := 2; hour := 3; minute := 4;
              day_of_week := Wednesday |}
  = "999-01-02 03:04 (Wednesday)".
Proof. reflexivity. Qed.

Example path_join_normalised :
  path_join "." "AGENTS.md" = "AGENTS.md"
  /\ path_join "/" "AGENTS.md" = "/AGENTS.md"
  /\ path_join "/ws" "AGENTS.md" = "/ws/AGENTS.md"
  /\ path_join "ws/sub" "AGENTS.md" = "ws/sub/AGENTS.md".
Proof. repeat split; reflexivity. Qed.

(** An image that may not be read, and a path that cannot be looked up. *)
Example media_faults :
  is_file sample_world "/ws/locked.png" = Ok true
  /\ read_bytes sample_world "/ws/locked.png" = Raise (PermissionError "/ws/locked.png")
  /\ is_file sample_world "/ws/private/cat.png" = Raise (OSError "/ws/private/cat.png")
  /\ is_file sample_world "/ws" = Ok false
  /\ is_file sample_world "/nope" = Ok false.
Proof. repeat split; reflexivity. Qed.

Example sorted_set_sample :
  sorted_set ["b-skill"; "a-skill"; "a-skill"] = ["a-skill"; "b-skill"]
  /\ join ", " (sorted_set ["b-skill"; "a-skill"; "a-skill"]) = "a-skill, b-skill".
Proof. split; vm_compute; reflexivity. Qed.

(** A bootstrap path that exists but is a directory, or is not UTF-8, makes
    the loader, and with it the whole build, raise. *)
Example bootstrap_directory_raises :
  _load_bootstrap_files odd_world
    {| workspace := "/odd"; memory := {| get_memory_context := "" |};
       skills := no_skills; no_xml_skills := false |}
  = Raise (IsADirectoryError "/odd/AGENTS.md")
  /\ build_system_prompt odd_world
       {| workspace := "/bin"; memory := {| get_memory_context := "" |};
          skills := no_skills; no_xml_skills := false |} None
     = Raise (UnicodeDecodeError "/bin/SOUL.md").
Proof. split; vm_compute; reflexivity. Qed.

(** A catalog entry without a name makes compact mode raise. *)
Example nameless_entry_raises :
  skill_name_list
    {| workspace := "/ws"; memory := {| get_memory_context := "" |};
       skills := {| list_skills := [[("path", "/ws/skills/x/SKILL.md")]];
                    get_always_skills := []; load_skills_for_context := fun _ => "";
                    build_skills_summary := "" |};
       no_xml_skills := true |} None
  = Raise (KeyError "name").
Proof. reflexivity. Qed.

(** ** Strings, loops and sorted sets *)

Lemma string_app_nil_r (s : string) : s +:+ "" = s.
Proof.
  induction s as [|c s IH]; [reflexivity|].
  change (String c (s +:+ "") = String c s). f_equal. exact IH.
Qed.

Lemma str_truthy_false (s : string) : str_truthy s = false <-> s = "".
Proof. destruct s; cbn; split; congruence. Qed.

(** [sep.join] of a non-empty list starts with its first element, and is
    that element alone when there is no other. *)
Lemma join_cons (sep x : string) (l : list string) :
  exists rest, join sep (x :: l) = x +:+ rest /\ (l = [] -> rest = "").
Proof.
  destruct l as [|y l].
  - exists "". cbn. rewrite string_app_nil_r. split; reflexivity.
  - exists (sep +:+ join sep (y :: l)). split; [reflexivity | discriminate].
Qed.

Lemma foldl_snoc_fmap {A B : Type} (f : B -> A) (l : list B) (acc : list A) :
  foldl (fun acc x => acc ++ [f x]) acc l = acc ++ (f <$> l).
Proof.
  revert acc. induction l as [|x l IH]; intros acc; cbn.
  - rewrite app_nil_r. reflexivity.
  - rewrite IH, <- app_assoc. reflexivity.
Qed.

Lemma Ok_inj {A : Type} (a b : A) : Ok a = Ok b -> a = b.
Proof. congruence. Qed.

Lemma for_each_app {A S : Type} (body : S -> A -> result S) (l1 l2 : list A) (acc : S) :
  for_each body (l1 ++ l2) acc = (acc' ← for_each body l1 acc; for_each body l2 acc').
Proof.
  revert acc. induction l1 as [|x l1 IH]; intros acc; [reflexivity|].
  cbn [app for_each]. destruct (body acc x) as [acc'|e]; [apply IH | reflexivity].
Qed.

Lemma sorted_set_Sorted (names : list string) : Sorted String.le (sorted_set names).
Proof. apply (Sorted_merge_sort String.le). Qed.

Lemma sorted_set_Permutation (names : list string) :
  sorted_set names ≡ₚ elements (list_to_set names : gset string).
Proof. apply merge_sort_Permutation. Qed.

Lemma sorted_set_NoDup (names : list string) : NoDup (sorted_set names).
Proof. rewrite sorted_set_Permutation. apply NoDup_elements. Qed.

Lemma sorted_set_elem_of (names : list string) (x : string) :
  x ∈ sorted_set names <-> x ∈ names.
Proof.
  rewrite sorted_set_Permutation, elem_of_elements, elem_of_list_to_set. reflexivity.
Qed.

Lemma sorted_set_nil : sorted_set [] = [].
Proof. reflexivity. Qed.


(** ** Message mutators *)

(** C7: [add_assistant_message] appends exactly one message, with role
    [assistant]; its [content] field is always present and is the empty
    string when the argument is absent; [tool_calls] is present exactly when
    the argument is a non-empty list, and [reasoning_content] exactly when the
    argument is a non-empty string, in both cases with the argument's value
    unchanged. *)
Theorem add_assistant_message_fields :
  forall (messages : list dict) (content : option string)
         (tool_calls : option (list value)) (reasoning_content : option string),
  exists msg : dict,
    add_assistant_message messages content tool_calls reasoning_content
      = messages ++ [msg]
    /\ dict_get "role" msg = Some (VStr "assistant")
    /\ dict_get "content" msg = Some (VStr (default "" content))
    /\ dict_get "tool_calls" msg
       = match tool_calls with
         | Some (c :: tc) => Some (VList (c :: tc))
         | _ => None
         end
    /\ dict_get "reasoning_content" msg
       = match reasoning_content with
         | Some (String a r) => Some (VStr (String a r))
         | _ => None
         end.
Proof.
  intros messages content tool_calls reasoning_content.
  unfold add_assistant_message.
  eexists; split; [reflexivity|].
  destruct content as [[|? ?]|], tool_calls as [[|? ?]|],
    reasoning_content as [[|? ?]|]; cbn; repeat split; reflexivity.
Qed.

(** ** Media encoder *)

Lemma startswith_nonempty (mime : string) :
  startswith mime "image/" = true -> str_truthy mime = true.
Proof. destruct mime; [discriminate | reflexivity]. Qed.

(** The loop guard, read positively. *)
Lemma skipped_false_iff (w : World) (path : string) :
  skipped w path = Ok false
  <-> is_file w path = Ok true
      /\ exists mime, mimetypes_guess_type w path = Some mime
                      /\ startswith mime "image/" = true.
Proof.
  unfold skipped. destruct (is_file w path) as [file|e]; cbn [mbind result_bind].
  - split.
    + intros H. apply Ok_inj in H. apply orb_false_elim in H as [H Himg].
      apply orb_false_elim in H as [Hfile Hmime].
      apply negb_false_iff in Hfile, Hmime, Himg. subst file.
      split; [reflexivity|].
      destruct (mimetypes_guess_type w path) as [mime|]; [|discriminate].
      exists mime. split; [reflexivity | exact Himg].
    + intros [Hfile (mime & Hguess & Himg)]. apply Ok_inj in Hfile. subst file.
      rewrite Hguess. cbn -[startswith str_truthy].
      rewrite (startswith_nonempty _ Himg), Himg. reflexivity.
  - split; [discriminate | intros [[=] _]].
Qed.

Lemma survives_iff (w : World) (path : string) :
  survives w path = true <-> skipped w path = Ok false.
Proof.
  unfold survives. destruct (skipped w path) as [[|]|]; cbn; split; congruence.
Qed.

(** A path that passes the guard is a regular file; when it is readable the
    bytes read are those of the snapshot. *)
Lemma read_bytes_ok (w : World) (path : string) (data : list byte) :
  read_bytes w path = Ok data -> file_data w path = data.
Proof.
  unfold read_bytes, file_data.
  destruct (fs w path) as [[[d| |]|]|]; cbn [mbind result_bind]; congruence.
Qed.

(** One iteration on a path that can be looked up and, if it survives, read. *)
Lemma encode_path_eq (w : World) (images : list value) (path : string) :
  encodable w [path] = true ->
  encode_path w images path
  = Ok (if survives w path then images ++ [image_block_of w path] else images).
Proof.
  unfold encodable, encode_path, survives. cbn [forallb]. rewrite andb_true_r.
  destruct (skipped w path) as [[|]|]; cbn [mbind result_bind negb];
    try discriminate; [reflexivity|].
  destruct (read_bytes w path) as [data|] eqn:Hread; [|discriminate].
  intros _. cbn [mbind result_bind]. unfold image_block_of.
  rewrite (read_bytes_ok _ _ _ Hread). reflexivity.
Qed.

(** The loop over [media] collects the blocks of the surviving paths in
    order. *)
Lemma for_each_encode_path (w : World) (media : list string) (images : list value) :
  encodable w media = true ->
  for_each (encode_path w) media images
  = Ok (images ++ (image_block_of w <$> surviving w media)).
Proof.
  revert images. induction media as [|path media IH]; intros images Hall.
  - cbn. rewrite app_nil_r. reflexivity.
  - assert (Hpath : encodable w [path] = true /\ encodable w media = true).
    { unfold encodable in *. cbn [forallb] in *. rewrite andb_true_r.
      apply andb_true_iff. exact Hall. }
    destruct Hpath as [Hpath Hrest].
    cbn [for_each]. rewrite (encode_path_eq _ _ _ Hpath). cbn [mbind result_bind].
    rewrite (IH _ Hrest). unfold surviving. rewrite filter_cons.
    destruct (survives w path).
    + rewrite decide_True by reflexivity.
      rewrite fmap_cons, <- app_assoc. reflexivity.
    + rewrite decide_False by discriminate. reflexivity.
Qed.

Lemma build_user_content_eq (w : World) (text : string) (media : option (list string)) :
  encodable w (default [] media) = true ->
  _build_user_content w text media
  = Ok (match image_block_of w <$> surviving w (default [] media) with
        | [] => VStr text
        | images => VList (images ++ [text_block text])
        end).
Proof.
  intros Hall. unfold _build_user_content.
  destruct media as [[|path media]|]; cbn -[surviving for_each encodable] in *;
    try reflexivity.
  rewrite (for_each_encode_path _ _ _ Hall). cbn -[surviving].
  destruct (image_block_of w <$> surviving w (path :: media)); reflexivity.
Qed.

(** The first fault stops the loop: the paths before it are encodable, the
    guard or the read of the next one raises. *)
Lemma for_each_encode_path_raises (w : World) (before after : list string)
    (path : string) (images : list value) (e : exn) :
  encodable w before = true ->
  (skipped w path = Raise e \/ skipped w path = Ok false /\ read_bytes w path = Raise e) ->
  for_each (encode_path w) (before ++ path :: after) images = Raise e.
Proof.
  intros Hbefore Hfault. rewrite for_each_app.
  rewrite (for_each_encode_path _ _ _ Hbefore). cbn [mbind result_bind for_each].
  unfold encode_path. destruct Hfault as [-> | [-> ->]]; reflexivity.
Qed.

(** C2 (as amended): when every path of [media] can be looked up and every
    surviving file can be read, and at least one path survives the filter,
    the encoder returns the [image_url] blocks of the surviving paths, in the
    order of the input, each with the data URL of its file, followed by one
    block of type [text] holding the text.  A path survives exactly when it
    names a regular file whose guessed MIME type starts with [image/]; every
    other path that can be looked up is skipped, and nothing is raised. *)
Theorem build_user_content_images :
  forall (w : World) (text : string) (media : list string),
    encodable w media = true ->
    surviving w media <> [] ->
    _build_user_content w text (Some media)
    = Ok (VList
            (((fun path =>
                 VDict [("type", VStr "image_url");
                        ("image_url",
                         VDict [("url",
                                 VStr ("data:"
                                       +:+ default "" (mimetypes_guess_type w path)
                                       +:+ ";base64,"
                                       +:+ b64encode (file_data w path)))])])
                <$> surviving w media)
             ++ [VDict [("type", VStr "text"); ("text", VStr text)]]))
    /\ surviving w media `sublist_of` media
    /\ (forall path,
          path ∈ surviving w media
          <-> path ∈ media
              /\ is_file w path = Ok true
              /\ exists mime, mimetypes_guess_type w path = Some mime
                              /\ startswith mime "image/" = true)
    /\ (forall path, path ∈ surviving w media ->
                     exists data, fs w path = Ok (Some (RegularFile data))
                                  /\ file_data w path = data).
Proof.
  intros w text media Hall Hsome. split; [|split; [|split]].
  - rewrite (build_user_content_eq w text (Some media) Hall). cbn -[surviving].
    destruct (surviving w media) as [|p ps] eqn:Hs; [congruence|]. reflexivity.
  - apply sublist_filter.
  - intros path. unfold surviving. rewrite list_elem_of_filter.
    rewrite survives_iff, skipped_false_iff. tauto.
  - intros path Hin. unfold surviving in Hin. apply list_elem_of_filter in Hin as [Hs Hin].
    apply survives_iff in Hs.
    assert (Hread : exists data, read_bytes w path = Ok data).
    { unfold encodable in Hall.
      pose proof (proj1 (forallb_forall _ _) Hall path
                    (proj1 (list_elem_of_In _ _) Hin)) as Hp.
      cbn beta in Hp. rewrite Hs in Hp.
      destruct (read_bytes w path); [eauto|discriminate]. }
    destruct Hread as [data Hread]. exists data.
    split; [|exact (read_bytes_ok _ _ _ Hread)].
    unfold read_bytes in Hread.
    destruct (fs w path) as [[[d| |]|]|]; cbn [mbind result_bind] in Hread; congruence.
Qed.

Lemma build_user_content_images_witness :
  encodable sample_world ["/ws/gone.png"; "/ws/pic.png"; "/ws/notes.txt"; "/nope"] = true
  /\ surviving sample_world ["/ws/gone.png"; "/ws/pic.png"; "/ws/notes.txt"; "/nope"] <> []
  /\ _build_user_content sample_world "look"
       (Some ["/ws/gone.png"; "/ws/pic.png"; "/ws/notes.txt"; "/nope"])
     = Ok (VList [VDict [("type", VStr "image_url");
                         ("image_url",
                          VDict [("url", VStr "data:image/png;base64,iVBORw==")])];
                  VDict [("type", VStr "text"); ("text", VStr "look")]]).
Proof.
  split; [vm_compute; reflexivity|]. split; [vm_compute; discriminate|].
  refine (eq_trans (proj1 (build_user_content_images sample_world "look"
            ["/ws/gone.png"; "/ws/pic.png"; "/ws/notes.txt"; "/nope"] _ _)) _).
  - vm_compute; reflexivity.
  - vm_compute; discriminate.
  - vm_compute; reflexivity.
Defined.

(** C2 as worded fails: an image file that passes the guard but may not be
    read makes the encoder raise instead of returning the blocks, and a path
    that cannot be looked up is not skipped: the lookup error is raised. *)
Lemma build_user_content_unreadable_counterexample :
  ~ (forall (w : World) (text : string) (media : list string),
       surviving w media <> [] ->
       exists images,
         _build_user_content w text (Some media)
         = Ok (VList (images ++ [VDict [("type", VStr "text"); ("text", VStr text)]])))
  /\ _build_user_content sample_world "look" (Some ["/ws/locked.png"; "/ws/pic.png"])
     = Raise (PermissionError "/ws/locked.png")
  /\ _build_user_content sample_world "look" (Some ["/ws/private/cat.png"; "/ws/pic.png"])
     = Raise (OSError "/ws/private/cat.png").
Proof.
  split; [|split; reflexivity].
  intros H.
  destruct (H sample_world "look" ["/ws/locked.png"; "/ws/pic.png"]) as [images Himages].
  - vm_compute. discriminate.
  - vm_compute in Himages. discriminate Himages.
Qed.

(** C6 (as amended): when every path of [media] can be looked up and none
    survives the filter, and likewise when [media] is empty or absent, the
    encoder returns the text itself, as plain text. *)
Theorem build_user_content_plain :
  forall (w : World) (text : string) (media : option (list string)),
    encodable w (default [] media) = true ->
    surviving w (default [] media) = [] ->
    _build_user_content w text media = Ok (VStr text)
    /\ _build_user_content w text None = Ok (VStr text)
    /\ _build_user_content w text (Some []) = Ok (VStr text).
Proof.
  intros w text media Hall Hnone. repeat split; try reflexivity.
  rewrite (build_user_content_eq _ _ _ Hall), Hnone. reflexivity.
Qed.

Lemma build_user_content_plain_witness :
  encodable sample_world (default [] (Some ["/ws/notes.txt"; "/ws/gone.png"; "/ws"])) = true
  /\ surviving sample_world (default [] (Some ["/ws/notes.txt"; "/ws/gone.png"; "/ws"])) = []
  /\ _build_user_content sample_world "hello"
       (Some ["/ws/notes.txt"; "/ws/gone.png"; "/ws"]) = Ok (VStr "hello").
Proof.
  split; [vm_compute; reflexivity|]. split; [vm_compute; reflexivity|].
  apply (build_user_content_plain sample_world "hello"
           (Some ["/ws/notes.txt"; "/ws/gone.png"; "/ws"]));
    vm_compute; reflexivity.
Defined.

(** C6 as worded fails: a path that cannot be looked up does not survive as
    an image, yet the encoder raises the lookup error instead of returning
    the text. *)
Lemma build_user_content_lookup_counterexample :
  ~ (forall (w : World) (text : string) (media : option (list string)),
       surviving w (default [] media) = [] ->
       _build_user_content w text media = Ok (VStr text)).
Proof.
  intros H.
  specialize (H sample_world "hello" (Some ["/ws/notes.txt"; "/ws/private/cat.png"])).
  vm_compute in H. specialize (H eq_refl). discriminate H.
Qed.

(** ** Bootstrap loader *)

Lemma load_bootstrap_file_eq (w : World) (self : ContextBuilder)
    (parts : list string) (filename : string) :
  readable_or_absent w self filename = true ->
  load_bootstrap_file w self parts filename
  = Ok (parts ++ option_list (bootstrap_section w self filename)).
Proof.
  unfold readable_or_absent, load_bootstrap_file, bootstrap_section.
  destruct (path_exists w (path_join (workspace self) filename)) as [[|]|];
    cbn [mbind result_bind]; try discriminate.
  - destruct (read_text w (path_join (workspace self) filename));
      [reflexivity|discriminate].
  - intros _. cbn. rewrite app_nil_r. reflexivity.
Qed.

Lemma for_each_load_bootstrap_file (w : World) (self : ContextBuilder)
    (files parts : list string) :
  forallb (readable_or_absent w self) files = true ->
  for_each (load_bootstrap_file w self) files parts
  = Ok (parts ++ omap (bootstrap_section w self) files).
Proof.
  revert parts. induction files as [|f files IH]; intros parts Hall.
  - cbn. rewrite app_nil_r. reflexivity.
  - cbn [forallb] in Hall. apply andb_true_iff in Hall as [Hf Hall].
    cbn [for_each]. rewrite (load_bootstrap_file_eq _ _ _ _ Hf).
    cbn [mbind result_bind]. rewrite (IH _ Hall), <- app_assoc.
    cbn [omap list_omap]. destruct (bootstrap_section w self f); reflexivity.
Qed.

Lemma bootstrap_section_absent (w : World) (self : ContextBuilder) (files : list string) :
  existsb (bootstrap_exists w self) files = false ->
  omap (bootstrap_section w self) files = [].
Proof.
  induction files as [|f files IH]; [reflexivity|].
  cbn [existsb]. intros H. apply orb_false_elim in H as [Hf Hrest].
  cbn [omap list_omap]. fold (omap (bootstrap_section w self) files).
  rewrite (IH Hrest). unfold bootstrap_exists in Hf. unfold bootstrap_section.
  destruct (path_exists w (path_join (workspace self) f)) as [[|]|];
    [discriminate | reflexivity | reflexivity].
Qed.

Lemma load_bootstrap_files_eq (w : World) (self : ContextBuilder) :
  forallb (readable_or_absent w self) BOOTSTRAP_FILES = true ->
  _load_bootstrap_files w self
  = Ok (join (nl +:+ nl) (omap (bootstrap_section w self) BOOTSTRAP_FILES)).
Proof.
  intros Hall. unfold _load_bootstrap_files.
  rewrite (for_each_load_bootstrap_file _ _ _ _ Hall). cbn [mbind result_bind app].
  destruct (omap (bootstrap_section w self) BOOTSTRAP_FILES); reflexivity.
Qed.

(** ** The parts of the system prompt *)

(** The prompt is the identity, the non-empty bootstrap and memory sections,
    and what the selected skill mode appends, in that order. *)
Lemma build_system_prompt_parts_eq (w : World) (self : ContextBuilder)
    (skill_names : option (list string)) :
  build_system_prompt_parts w self skill_names
  = (bootstrap ← _load_bootstrap_files w self;
     skills ← skills_parts w self skill_names;
     Ok (leading_parts w self bootstrap ++ skills)).
Proof.
  unfold build_system_prompt_parts, skills_parts, leading_parts, progressive_skills_parts.
  destruct (_load_bootstrap_files w self) as [bootstrap|e]; [|reflexivity].
  cbn [mbind result_bind].
  destruct (no_xml_skills self).
  - destruct (skill_name_list self skill_names) as [names|e]; [|reflexivity].
    cbn [mbind result_bind]. unfold compact_skills_parts.
    destruct (sorted_set names) as [|n ns]; cbn [list_truthy].
    + destruct (str_truthy bootstrap), (str_truthy (get_memory_context (memory self)));
        reflexivity.
    + rewrite foldl_snoc_fmap.
      destruct (str_truthy bootstrap), (str_truthy (get_memory_context (memory self)));
        reflexivity.
  - cbn [mbind result_bind].
    destruct (str_truthy bootstrap), (str_truthy (get_memory_context (memory self))),
      (list_truthy (get_always_skills (skills self))),
      (str_truthy (load_skills_for_context (skills self) (get_always_skills (skills self)))),
      (str_truthy (build_skills_summary (skills self)));
      reflexivity.
Qed.

(** C8: the loader goes through [AGENTS.md], [SOUL.md], [USER.md] in that
    order; each file that exists contributes the section [## <filename>], an
    empty line, and the file's text read as UTF-8, the sections being joined
    by an empty line; a file that does not exist contributes nothing.  When
    none of the three exists the loader returns the empty string, and the
    parts of the system prompt are then the identity, the memory section and
    the skills, with no bootstrap part. *)
Theorem load_bootstrap_files_sections :
  forall (w : World) (self : ContextBuilder),
    forallb (readable_or_absent w self) BOOTSTRAP_FILES = true ->
    BOOTSTRAP_FILES = ["AGENTS.md"; "SOUL.md"; "USER.md"]
    /\ _load_bootstrap_files w self
       = Ok (join (nl +:+ nl) (omap (bootstrap_section w self) BOOTSTRAP_FILES))
    /\ (forall filename,
          In filename BOOTSTRAP_FILES ->
          bootstrap_exists w self filename = true ->
          exists content,
            read_text w (path_join (workspace self) filename) = Ok content
            /\ bootstrap_section w self filename
               = Some ("## " +:+ filename +:+ nl +:+ nl +:+ content))
    /\ (forall filename,
          bootstrap_exists w self filename = false ->
          bootstrap_section w self filename = None)
    /\ (existsb (bootstrap_exists w self) BOOTSTRAP_FILES = false ->
        _load_bootstrap_files w self = Ok ""
        /\ forall skill_names skills,
             skills_parts w self skill_names = Ok skills ->
             build_system_prompt_parts w self skill_names
             = Ok ([_get_identity w self]
                   ++ (if str_truthy (get_memory_context (memory self))
                       then [memory_section (get_memory_context (memory self))]
                       else [])
                   ++ skills)).
Proof.
  intros w self Hall. split; [reflexivity|]. split; [|split; [|split]].
  - apply load_bootstrap_files_eq, Hall.
  - intros filename Hin Hex.
    pose proof (proj1 (forallb_forall _ _) Hall filename Hin) as Hok.
    unfold readable_or_absent, bootstrap_exists in *. unfold bootstrap_section.
    destruct (path_exists w (path_join (workspace self) filename)) as [[|]|];
      try discriminate.
    destruct (read_text w (path_join (workspace self) filename)) as [content|];
      [|discriminate].
    exists content. split; reflexivity.
  - intros filename Hex. unfold bootstrap_exists in Hex. unfold bootstrap_section.
    destruct (path_exists w (path_join (workspace self) filename)) as [[|]|];
      [discriminate | reflexivity | reflexivity].
  - intros Hnone. apply bootstrap_section_absent in Hnone as Hnil.
    assert (Hload : _load_bootstrap_files w self = Ok "").
    { rewrite (load_bootstrap_files_eq _ _ Hall), Hnil. reflexivity. }
    split; [exact Hload|].
    intros skill_names skills Hskills.
    rewrite build_system_prompt_parts_eq, Hload, Hskills. reflexivity.
Qed.

Lemma load_bootstrap_files_sections_witness :
  forallb (readable_or_absent sample_world compact_builder) BOOTSTRAP_FILES = true
  /\ _load_bootstrap_files sample_world compact_builder
     = Ok ("## AGENTS.md" +:+ nl +:+ nl +:+ "Be kind." +:+ nl +:+ nl
           +:+ "## USER.md" +:+ nl +:+ nl +:+ "Ada").
Proof.
  split; [vm_compute; reflexivity|].
  refine (eq_trans (proj1 (proj2
            (load_bootstrap_files_sections sample_world compact_builder _))) _).
  - vm_compute; reflexivity.
  - vm_compute; reflexivity.
Defined.

(** ** Compact skill disclosure *)

Lemma mapM_skill_names (names : list string) :
  mapM skill_ref_name (SkillName <$> names) = Ok names.
Proof.
  induction names as [|n names IH]; [reflexivity|].
  change (mapM skill_ref_name (SkillName <$> n :: names))
    with (name ← skill_ref_name (SkillName n);
          rest ← mapM skill_ref_name (SkillName <$> names);
          mret (M:=result) (name :: rest)).
  rewrite IH. reflexivity.
Qed.

(** [skill_names or self.skills.list_skills()]: the argument when it is a
    non-empty list, the catalog otherwise. *)
Lemma skill_name_list_eq (self : ContextBuilder) (skill_names : option (list string)) :
  skill_name_list self skill_names
  = match skill_names with
    | Some (name :: rest) => Ok (name :: rest)
    | _ => catalog_names self
    end.
Proof.
  unfold skill_name_list, catalog_names.
  destruct skill_names as [[|name rest]|]; cbn [opt_truthy list_truthy]; try reflexivity.
  apply (mapM_skill_names (name :: rest)).
Qed.




(** C10: in compact mode an explicit empty [skill_names] does not suppress
    the skills section: it selects the whole catalog, exactly as an absent
    argument does.  When the bootstrap files load and the catalog holds at
    least one name, both calls append the [# Skills] section of the sorted
    catalog names and their load lines, and build the same prompt. *)
Theorem empty_skill_names_is_catalog :
  forall (w : World) (self : ContextBuilder) (bootstrap : string) (raw : list string),
    no_xml_skills self = true ->
    _load_bootstrap_files w self = Ok bootstrap ->
    catalog_names self = Ok raw ->
    raw <> [] ->
    sorted_set raw <> []
    /\ build_system_prompt_parts w self (Some [])
       = Ok ([_get_identity w self]
             ++ (if str_truthy bootstrap then [bootstrap] else [])
             ++ (if str_truthy (get_memory_context (memory self))
                 then [memory_section (get_memory_context (memory self))] else [])
             ++ skills_names_section (sorted_set raw)
                :: (load_details_line (resolve w (workspace self)) <$> sorted_set raw))
    /\ build_system_prompt_parts w self None = build_system_prompt_parts w self (Some [])
    /\ build_system_prompt w self (Some []) = build_system_prompt w self None
    /\ skill_name_list self (Some []) = catalog_names self
    /\ skill_name_list self None = catalog_names self.
Proof.
  intros w self bootstrap raw Hmode Hboot Hraw Hne.
  assert (Hsorted : sorted_set raw <> []).
  { destruct raw as [|n raw]; [congruence|]. intros Hnil.
    assert (Hin : n ∈ sorted_set (n :: raw)) by (apply sorted_set_elem_of; left).
    rewrite Hnil in Hin. inversion Hin. }
  split; [exact Hsorted|]. split; [|repeat split; reflexivity].
  rewrite build_system_prompt_parts_eq, Hboot. unfold skills_parts.
  rewrite Hmode, skill_name_list_eq, Hraw. cbn [mbind result_bind].
  unfold leading_parts, compact_skills_parts.
  destruct (sorted_set raw) as [|n names]; [congruence|].
  rewrite <- !app_assoc. reflexivity.
Qed.

Lemma empty_skill_names_is_catalog_witness :
  no_xml_skills compact_builder = true
  /\ _load_bootstrap_files empty_world compact_builder = Ok ""
  /\ catalog_names compact_builder = Ok ["zeta"; "alpha"]
  /\ ["zeta"; "alpha"] <> @nil string
  /\ build_system_prompt_parts empty_world compact_builder (Some [])
     = Ok [_get_identity empty_world compact_builder;
           "# Skills" +:+ nl +:+ nl +:+ "Available skills: alpha, zeta" +:+ nl;
           "Load details with read_file: /ws/skills/alpha/SKILL.md" +:+ nl;
           "Load details with read_file: /ws/skills/zeta/SKILL.md" +:+ nl].
Proof.
  split; [reflexivity|]. split; [reflexivity|]. split; [reflexivity|].
  split; [discriminate|].
  refine (eq_trans (proj1 (proj2
            (empty_skill_names_is_catalog empty_world compact_builder ""
               ["zeta"; "alpha"] _ _ _ _))) _).
  - reflexivity.
  - reflexivity.
  - reflexivity.
  - discriminate.
  - vm_compute; reflexivity.
Defined.

(** The section is there: the sample catalog is listed for an empty list. *)
Example empty_skill_names_lists_catalog :
  skills_parts empty_world compact_builder (Some [])
  = Ok ["# Skills" +:+ nl +:+ nl +:+ "Available skills: alpha, zeta" +:+ nl;
        "Load details with read_file: /ws/skills/alpha/SKILL.md" +:+ nl;
        "Load details with read_file: /ws/skills/zeta/SKILL.md" +:+ nl].
Proof. vm_compute; reflexivity. Qed.

(** ** The system prompt as a whole *)

Lemma identity_nonempty (w : World) (self : ContextBuilder) :
  str_truthy (_get_identity w self) = true.
Proof. reflexivity. Qed.

Lemma app_nonempty (s rest : string) : str_truthy s = true -> s +:+ rest <> "".
Proof. destruct s; [discriminate|]. intros _. discriminate. Qed.

(** When compact mode, or progressive mode, appends nothing. *)
Lemma skills_parts_nil (w : World) (self : ContextBuilder)
    (skill_names : option (list string)) :
  skills_parts w self skill_names = Ok []
  <-> if no_xml_skills self
      then skill_name_list self skill_names = Ok []
      else (get_always_skills (skills self) = []
            \/ load_skills_for_context (skills self) (get_always_skills (skills self)) = "")
           /\ build_skills_summary (skills self) = "".
Proof.
  unfold skills_parts, progressive_skills_parts.
  destruct (no_xml_skills self).
  - destruct (skill_name_list self skill_names) as [names|e]; cbn [mbind result_bind].
    + split.
      * intros H. f_equal. destruct names as [|n names]; [reflexivity|].
        assert (Hin : n ∈ sorted_set (n :: names)) by (apply sorted_set_elem_of; left).
        unfold compact_skills_parts in H.
        destruct (sorted_set (n :: names)); [inversion Hin | discriminate].
      * intros [= ->]. reflexivity.
    + split; discriminate.
  - rewrite <- !str_truthy_false.
    destruct (get_always_skills (skills self)) as [|a l]; cbn [list_truthy andb].
    + destruct (str_truthy (build_skills_summary (skills self))); cbn; split;
        try discriminate; try tauto. intros [_ [=]].
    + destruct (str_truthy (load_skills_for_context (skills self) (a :: l))),
        (str_truthy (build_skills_summary (skills self))); cbn; split;
        try discriminate; try tauto;
        try solve [intros [_ [=]]]; try solve [intros [[[=]|[=]] _]].
Qed.

(** C9: whenever the bootstrap files load and the skills resolve, the build
    returns a prompt that is not empty and begins with the identity block;
    when the bootstrap, memory and skills sections are all empty the prompt
    is the identity block itself, without a separator. *)
Theorem system_prompt_begins_with_identity :
  forall (w : World) (self : ContextBuilder) (skill_names : option (list string))
         (bootstrap : string) (skills : list string),
    _load_bootstrap_files w self = Ok bootstrap ->
    skills_parts w self skill_names = Ok skills ->
    exists rest,
      build_system_prompt w self skill_names = Ok (_get_identity w self +:+ rest)
      /\ _get_identity w self +:+ rest <> ""
      /\ (bootstrap = "" -> get_memory_context (memory self) = "" -> skills = [] ->
          build_system_prompt w self skill_names = Ok (_get_identity w self)).
Proof.
  intros w self skill_names bootstrap skills Hboot Hskills.
  assert (Hbuild : build_system_prompt w self skill_names
                   = Ok (join SEPARATOR (leading_parts w self bootstrap ++ skills))).
  { unfold build_system_prompt.
    rewrite build_system_prompt_parts_eq, Hboot, Hskills. reflexivity. }
  unfold leading_parts in Hbuild. cbn [app] in Hbuild.
  destruct (join_cons SEPARATOR (_get_identity w self)
              (((if str_truthy bootstrap then [bootstrap] else [])
                ++ (if str_truthy (get_memory_context (memory self))
                    then [memory_section (get_memory_context (memory self))] else []))
               ++ skills)) as (rest & Hjoin & Hrest).
  exists rest. split; [rewrite Hbuild, Hjoin; reflexivity|].
  split; [apply app_nonempty, identity_nonempty|].
  intros -> Hmem ->. rewrite Hbuild. rewrite Hmem in *. cbn in *.
  reflexivity.
Qed.

Lemma system_prompt_begins_with_identity_witness :
  _load_bootstrap_files empty_world bare_builder = Ok ""
  /\ skills_parts empty_world bare_builder None = Ok []
  /\ exists rest,
       build_system_prompt empty_world bare_builder None
       = Ok (_get_identity empty_world bare_builder +:+ rest)
       /\ _get_identity empty_world bare_builder +:+ rest <> ""
       /\ (("" : string) = "" -> get_memory_context (memory bare_builder) = "" ->
           ([] : list string) = [] ->
           build_system_prompt empty_world bare_builder None
           = Ok (_get_identity empty_world bare_builder)).
Proof.
  split; [reflexivity|]. split; [reflexivity|].
  apply (system_prompt_begins_with_identity empty_world bare_builder None "" []);
    reflexivity.
Defined.

(** ** What the prompt depends on *)

Lemma for_each_ext {A S : Type} (body1 body2 : S -> A -> result S) (l : list A) :
  (forall acc x, body1 acc x = body2 acc x) ->
  forall acc, for_each body1 l acc = for_each body2 l acc.
Proof.
  intros Hbody. induction l as [|x l IH]; intros acc; [reflexivity|].
  cbn [for_each]. rewrite Hbody.
  destruct (body2 acc x) as [acc'|e]; [apply IH | reflexivity].
Qed.

Section SameObservations.
Variables w1 w2 : World.
Variables b1 b2 : ContextBuilder.
Hypothesis Hhost : same_host_state w1 w2.
Hypothesis Hcollab : same_collaborators b1 b2.

Lemma read_text_same (p : string) : read_text w1 p = read_text w2 p.
Proof.
  destruct Hhost as (Hfs & _). unfold read_text, read_bytes.
  rewrite (Hfs p). reflexivity.
Qed.

Lemma load_bootstrap_files_same :
  _load_bootstrap_files w1 b1 = _load_bootstrap_files w2 b2.
Proof.
  destruct Hhost as (Hfs & _). destruct Hcollab as (Hws & _).
  unfold _load_bootstrap_files. f_equal.
  apply for_each_ext. intros parts filename.
  unfold load_bootstrap_file, path_exists.
  rewrite Hws, (Hfs (path_join (workspace b2) filename)), read_text_same.
  reflexivity.
Qed.

Lemma skills_parts_same (skill_names : option (list string)) :
  skills_parts w1 b1 skill_names = skills_parts w2 b2 skill_names.
Proof.
  destruct Hhost as (_ & Hres & _).
  destruct Hcollab as (Hws & Hmode & _ & Hlist & Halways & Hload & Hsum).
  unfold skills_parts, skill_name_list, progressive_skills_parts.
  rewrite Hmode, Hws, Hres, Hlist, Halways, Hsum, !Hload. reflexivity.
Qed.

Lemma get_identity_same :
  same_clock w1 w2 -> _get_identity w1 b1 = _get_identity w2 b2.
Proof.
  intros (Hnow & Htz).
  destruct Hhost as (_ & Hres & Hsys & Hmach & Hver).
  destruct Hcollab as (Hws & _).
  unfold _get_identity. rewrite Hnow, Htz, Hws, Hres, Hsys, Hmach, Hver.
  reflexivity.
Qed.
End SameObservations.

(** C5 (as amended): two builds with the same arguments, the same files and
    path resolution, the same platform, the same responses of the Memory and
    Skills collaborators and the same clock reading (local time to the
    minute, time zone name) return the same prompt, or raise the same error. *)
Theorem build_system_prompt_deterministic :
  forall (w1 w2 : World) (b1 b2 : ContextBuilder) (skill_names : option (list string)),
    same_host_state w1 w2 ->
    same_clock w1 w2 ->
    same_collaborators b1 b2 ->
    build_system_prompt w1 b1 skill_names = build_system_prompt w2 b2 skill_names.
Proof.
  intros w1 w2 b1 b2 skill_names Hhost Hclock Hcollab.
  unfold build_system_prompt. rewrite !build_system_prompt_parts_eq.
  rewrite (load_bootstrap_files_same w1 w2 b1 b2 Hhost Hcollab).
  rewrite (skills_parts_same w1 w2 b1 b2 Hhost Hcollab).
  unfold leading_parts.
  rewrite (get_identity_same w1 w2 b1 b2 Hhost Hcollab Hclock).
  destruct Hcollab as (_ & _ & Hmem & _). rewrite Hmem. reflexivity.
Qed.

Lemma build_system_prompt_deterministic_witness :
  same_host_state sample_world sample_world_no_mime
  /\ same_clock sample_world sample_world_no_mime
  /\ same_collaborators compact_builder compact_builder
  /\ build_system_prompt sample_world compact_builder None
     = build_system_prompt sample_world_no_mime compact_builder None.
Proof.
  assert (Hhost : same_host_state sample_world sample_world_no_mime)
    by (repeat split; reflexivity).
  assert (Hclock : same_clock sample_world sample_world_no_mime)
    by (split; reflexivity).
  assert (Hcollab : same_collaborators compact_builder compact_builder)
    by (repeat split; reflexivity).
  split; [exact Hhost|]. split; [exact Hclock|]. split; [exact Hcollab|].
  exact (build_system_prompt_deterministic sample_world sample_world_no_mime
           compact_builder compact_builder None Hhost Hclock Hcollab).
Defined.

(** C5 as worded fails: the identity block prints the current time, so the
    same build on the same files, platform and collaborators one minute later
    returns another prompt. *)
Lemma build_system_prompt_clock_counterexample :
  ~ (forall (w1 w2 : World) (b1 b2 : ContextBuilder)
            (skill_names : option (list string)),
       same_host_state w1 w2 ->
       same_collaborators b1 b2 ->
       build_system_prompt w1 b1 skill_names = build_system_prompt w2 b2 skill_names).
Proof.
  intros H.
  assert (Hhost : same_host_state sample_world sample_world_later)
    by (repeat split; reflexivity).
  assert (Hcollab : same_collaborators compact_builder compact_builder)
    by (repeat split; reflexivity).
  specialize (H sample_world sample_world_later compact_builder compact_builder None
                Hhost Hcollab).
  vm_compute in H. discriminate H.
Qed.

(** ** The message list *)

Lemma build_messages_eq (w : World) (self : ContextBuilder)
    (history : list dict) (current_message : string)
    (skill_names : option (list string)) (media : option (list string))
    (channel chat_id : option string) (system_prompt : string) :
  build_system_prompt w self skill_names = Ok system_prompt ->
  encodable w (default [] media) = true ->
  exists content,
    _build_user_content w current_message media = Ok content
    /\ build_messages w self history current_message skill_names media channel chat_id
       = Ok ([system_message
                (if opt_truthy str_truthy channel && opt_truthy str_truthy chat_id
                 then system_prompt
                      +:+ session_footer (default "" channel) (default "" chat_id)
                 else system_prompt)]
             ++ history ++ [user_message content]).
Proof.
  intros Hprompt Hmedia. unfold build_messages. rewrite Hprompt. cbn [mbind result_bind].
  rewrite (build_user_content_eq _ _ _ Hmedia). eexists. split; reflexivity.
Qed.

(** C3: when the system prompt builds, [build_messages] returns the system
    message first, carrying the prompt (with the session footer when there is
    one), then every message of [history] in order and unchanged, then one
    user message whose content is the media-encoded current message; the list
    has two more elements than the history. *)
Theorem build_messages_shape :
  forall (w : World) (self : ContextBuilder) (history : list dict)
         (current_message : string) (skill_names : option (list string))
         (media : option (list string)) (channel chat_id : option string)
         (system_prompt : string),
    build_system_prompt w self skill_names = Ok system_prompt ->
    encodable w (default [] media) = true ->
    exists (text : string) (content : value) (messages : list dict),
      build_messages w self history current_message skill_names media channel chat_id
      = Ok messages
      /\ messages = [system_message text] ++ history ++ [user_message content]
      /\ _build_user_content w current_message media = Ok content
      /\ (text = system_prompt
          \/ text = system_prompt
                    +:+ session_footer (default "" channel) (default "" chat_id))
      /\ length messages = length history + 2
      /\ (forall i message, history !! i = Some message ->
                            messages !! (S i) = Some message).
Proof.
  intros w self history current_message skill_names media channel chat_id
    system_prompt Hprompt Hmedia.
  destruct (build_messages_eq w self history current_message skill_names media
              channel chat_id system_prompt Hprompt Hmedia) as (content & Hcontent & Hbuild).
  eexists _, content, _. split; [exact Hbuild|].
  split; [reflexivity|]. split; [exact Hcontent|]. split; [|split].
  - destruct (opt_truthy str_truthy channel && opt_truthy str_truthy chat_id);
      [right | left]; reflexivity.
  - cbn [app length]. rewrite length_app. cbn [length]. lia.
  - intros i message Hi. cbn [app lookup list_lookup].
    apply lookup_app_l_Some. exact Hi.
Qed.

Lemma build_messages_shape_witness :
  build_system_prompt empty_world bare_builder None
  = Ok (_get_identity empty_world bare_builder)
  /\ encodable empty_world (default [] None) = true
  /\ exists (text : string) (content : value) (messages : list dict),
       build_messages empty_world bare_builder
         [[("role", VStr "user"); ("content", VStr "hi")];
          [("role", VStr "assistant"); ("content", VStr "hello")]]
         "bye" None None None None
       = Ok messages
       /\ messages
          = [system_message text]
            ++ [[("role", VStr "user"); ("content", VStr "hi")];
                [("role", VStr "assistant"); ("content", VStr "hello")]]
            ++ [user_message content]
       /\ _build_user_content empty_world "bye" None = Ok content
       /\ (text = _get_identity empty_world bare_builder
           \/ text = _get_identity empty_world bare_builder
                     +:+ session_footer (default "" None) (default "" None))
       /\ length messages = 2 + 2
       /\ (forall i message,
             [[("role", VStr "user"); ("content", VStr "hi")];
              [("role", VStr "assistant"); ("content", VStr "hello")]] !! i
             = Some message ->
             messages !! (S i) = Some message).
Proof.
  split; [reflexivity|]. split; [reflexivity|].
  apply (build_messages_shape empty_world bare_builder
           [[("role", VStr "user"); ("content", VStr "hi")];
            [("role", VStr "assistant"); ("content", VStr "hello")]]
           "bye" None None None None (_get_identity empty_world bare_builder));
    reflexivity.
Defined.

Lemma session_footer_nonempty (system_prompt channel chat_id : string) :
  system_prompt +:+ session_footer channel chat_id <> system_prompt.
Proof.
  intros H. rewrite <- (string_app_nil_r system_prompt) in H at 2.
  apply (inj (String.app system_prompt)) in H. discriminate H.
Qed.

(** C4 (as amended): the system message carries the prompt followed by the
    footer [## Current Session], [Channel: <channel>], [Chat ID: <chat_id>]
    exactly when [channel] and [chat_id] are both given and both non-empty;
    in every other case it carries the prompt alone, and the two texts
    differ. *)
Theorem session_footer_iff_both_nonempty :
  forall (w : World) (self : ContextBuilder) (history : list dict)
         (current_message : string) (skill_names : option (list string))
         (media : option (list string)) (channel chat_id : option string)
         (system_prompt : string),
    build_system_prompt w self skill_names = Ok system_prompt ->
    encodable w (default [] media) = true ->
    exists rest,
      build_messages w self history current_message skill_names media channel chat_id
      = Ok (system_message
              (match channel, chat_id with
               | Some (String a c), Some (String b i) =>
                   system_prompt +:+ nl +:+ nl +:+ "## Current Session" +:+ nl
                   +:+ "Channel: " +:+ String a c +:+ nl
                   +:+ "Chat ID: " +:+ String b i
               | _, _ => system_prompt
               end) :: rest)
      /\ (forall c i, system_prompt +:+ session_footer c i <> system_prompt).
Proof.
  intros w self history current_message skill_names media channel chat_id
    system_prompt Hprompt Hmedia.
  destruct (build_messages_eq w self history current_message skill_names media
              channel chat_id system_prompt Hprompt Hmedia) as (content & _ & Hbuild).
  exists (history ++ [user_message content]).
  split; [|intros c i; apply session_footer_nonempty].
  rewrite Hbuild.
  destruct channel as [[|a c]|], chat_id as [[|b i]|]; reflexivity.
Qed.

Lemma session_footer_iff_both_nonempty_witness :
  build_system_prompt empty_world bare_builder None
  = Ok (_get_identity empty_world bare_builder)
  /\ encodable empty_world (default [] None) = true
  /\ exists rest,
       build_messages empty_world bare_builder [] "hello" None None
         (Some "telegram") (Some "42")
       = Ok (system_message
               (_get_identity empty_world bare_builder +:+ nl +:+ nl
                +:+ "## Current Session" +:+ nl
                +:+ "Channel: " +:+ "telegram" +:+ nl +:+ "Chat ID: " +:+ "42") :: rest)
       /\ (forall c i,
             _get_identity empty_world bare_builder +:+ session_footer c i
             <> _get_identity empty_world bare_builder).
Proof.
  split; [reflexivity|]. split; [reflexivity|].
  apply (session_footer_iff_both_nonempty empty_world bare_builder [] "hello"
           None None (Some "telegram") (Some "42")
           (_get_identity empty_world bare_builder));
    reflexivity.
Defined.

(** The specification's example: two messages, the footer at the end of the
    system text, then the user message. *)
Example build_messages_telegram :
  build_messages empty_world bare_builder [] "hello" None None
    (Some "telegram") (Some "42")
  = Ok [system_message
          (_get_identity empty_world bare_builder +:+ nl +:+ nl
           +:+ "## Current Session" +:+ nl +:+ "Channel: telegram" +:+ nl
           +:+ "Chat ID: 42");
        user_message (VStr "hello")].
Proof. vm_compute; reflexivity. Qed.

(** C4 as worded fails: a channel that is given but empty counts as
    supplied, yet no footer is appended. *)
Lemma session_footer_empty_channel_counterexample :
  ~ (forall (w : World) (self : ContextBuilder) (history : list dict)
            (current_message : string) (skill_names : option (list string))
            (media : option (list string)) (channel chat_id : option string)
            (system_prompt : string),
       build_system_prompt w self skill_names = Ok system_prompt ->
       encodable w (default [] media) = true ->
       exists rest,
         build_messages w self history current_message skill_names media
           channel chat_id
         = Ok (system_message
                 (match channel, chat_id with
                  | Some c, Some i => system_prompt +:+ session_footer c i
                  | _, _ => system_prompt
                  end) :: rest)).
Proof.
  intros H.
  destruct (H empty_world bare_builder [] "hello" None None (Some "") (Some "42")
              (_get_identity empty_world bare_builder) eq_refl eq_refl) as [rest Hrest].
  vm_compute in Hrest. discriminate Hrest.
Qed.

(** * Further properties *)

(** ** Runs of the message mutators *)

Lemma add_turn_snoc (messages : list dict) (t : turn) :
  exists msg, add_turn messages t = messages ++ [msg]
    /\ match t with
       | AssistantTurn content _ _ =>
           dict_get "role" msg = Some (VStr "assistant")
           /\ dict_get "content" msg = Some (VStr (default "" content))
       | ToolResult tool_call_id tool_name result =>
           keys msg = ["role"; "tool_call_id"; "name"; "content"]
           /\ dict_get "role" msg = Some (VStr "tool")
           /\ dict_get "tool_call_id" msg = Some (VStr tool_call_id)
           /\ dict_get "name" msg = Some (VStr tool_name)
           /\ dict_get "content" msg = Some (VStr result)
       end.
Proof.
  destruct t as [content tool_calls reasoning|tool_call_id tool_name result].
  - cbn [add_turn]. unfold add_assistant_message. eexists. split; [reflexivity|].
    destruct content as [[|? ?]|], tool_calls as [[|? ?]|],
      reasoning as [[|? ?]|]; split; reflexivity.
  - cbn [add_turn]. unfold add_tool_result. eexists. split; [reflexivity|].
    repeat split; reflexivity.
Qed.

(** X1: the two mutators are append-only.  Whatever sequence of assistant
    turns and tool results is applied, the messages that were there stay at
    their positions, one message is added per turn, in the order of the
    turns; an assistant turn adds a message with role [assistant] and a
    [content] field, a tool result adds exactly the four fields [role],
    [tool_call_id], [name], [content], the content being the result as given
    (also when it is the empty string). *)
Theorem add_turns_append_only :
  forall (turns : list turn) (messages : list dict),
  exists added : list dict,
    add_turns messages turns = messages ++ added
    /\ length (add_turns messages turns) = length messages + length turns
    /\ (forall i message, messages !! i = Some message ->
                          add_turns messages turns !! i = Some message)
    /\ Forall2
         (fun t msg =>
            match t with
            | AssistantTurn content _ _ =>
                dict_get "role" msg = Some (VStr "assistant")
                /\ dict_get "content" msg = Some (VStr (default "" content))
            | ToolResult tool_call_id tool_name result =>
                keys msg = ["role"; "tool_call_id"; "name"; "content"]
                /\ dict_get "role" msg = Some (VStr "tool")
                /\ dict_get "tool_call_id" msg = Some (VStr tool_call_id)
                /\ dict_get "name" msg = Some (VStr tool_name)
                /\ dict_get "content" msg = Some (VStr result)
            end) turns added.
Proof.
  induction turns as [|t turns IH]; intros messages.
  - exists []. cbn. rewrite app_nil_r. repeat split; auto with lia.
  - destruct (add_turn_snoc messages t) as (msg & Hstep & Hmsg).
    destruct (IH (add_turn messages t)) as (added & Heq & Hlen & _ & Hall).
    exists (msg :: added).
    assert (Hrun : add_turns messages (t :: turns) = messages ++ msg :: added).
    { unfold add_turns in *. cbn [foldl]. rewrite Heq, Hstep, <- app_assoc.
      reflexivity. }
    split; [exact Hrun|]. split; [|split].
    + rewrite Hrun, length_app. cbn [length]. apply Forall2_length in Hall. lia.
    + intros i message Hi. rewrite Hrun. apply lookup_app_l_Some. exact Hi.
    + constructor; assumption.
Qed.

(** ** Media encoder, continued *)

Lemma prefix_app (p rest : string) : String.prefix p (p +:+ rest) = true.
Proof.
  induction p as [|c p IH]; [destruct rest; reflexivity|].
  change (String.prefix (String c p) (String c (p +:+ rest)) = true).
  cbn [String.prefix]. destruct (ascii_dec c c); [exact IH | congruence].
Qed.

Lemma prefix_split (p s : string) :
  String.prefix p s = true -> exists rest, s = p +:+ rest.
Proof.
  revert s. induction p as [|c p IH]; intros s H.
  - exists s. reflexivity.
  - destruct s as [|c' s]; [discriminate|]. cbn [String.prefix] in H.
    destruct (ascii_dec c c') as [->|]; [|discriminate].
    destruct (IH s H) as [rest ->]. exists rest. reflexivity.
Qed.

Lemma string_app_assoc (a b c : string) : (a +:+ b) +:+ c = a +:+ b +:+ c.
Proof.
  induction a as [|x a IH]; [reflexivity|].
  change (String x ((a +:+ b) +:+ c) = String x (a +:+ b +:+ c)).
  f_equal. exact IH.
Qed.

(** X2: the encoder has no error handling.  The first path, in the order of
    [media], whose lookup fails, or that passes the guard but cannot be read,
    makes [_build_user_content] raise that error, whatever follows it in the
    list; once the prompt has built, [build_messages] raises it too. *)
Theorem first_media_fault_is_raised :
  forall (w : World) (text : string) (before after : list string) (path : string)
         (e : exn),
    encodable w before = true ->
    (skipped w path = Raise e
     \/ skipped w path = Ok false /\ read_bytes w path = Raise e) ->
    _build_user_content w text (Some (before ++ path :: after)) = Raise e
    /\ (forall self history skill_names channel chat_id system_prompt,
          build_system_prompt w self skill_names = Ok system_prompt ->
          build_messages w self history text skill_names
            (Some (before ++ path :: after)) channel chat_id = Raise e).
Proof.
  intros w text before after path e Hbefore Hfault.
  assert (Henc : _build_user_content w text (Some (before ++ path :: after)) = Raise e).
  { unfold _build_user_content.
    assert (Hne : opt_truthy list_truthy (Some (before ++ path :: after)) = true)
      by (destruct before; reflexivity).
    rewrite Hne. cbn [negb default from_option id].
    rewrite (for_each_encode_path_raises _ _ _ _ _ _ Hbefore Hfault). reflexivity. }
  split; [exact Henc|].
  intros self history skill_names channel chat_id system_prompt Hprompt.
  unfold build_messages. rewrite Hprompt. cbn [mbind result_bind].
  rewrite Henc. reflexivity.
Qed.

Lemma first_media_fault_is_raised_witness :
  encodable sample_world ["/ws/pic.png"] = true
  /\ (skipped sample_world "/ws/locked.png" = Raise (PermissionError "/ws/locked.png")
      \/ skipped sample_world "/ws/locked.png" = Ok false
         /\ read_bytes sample_world "/ws/locked.png"
            = Raise (PermissionError "/ws/locked.png"))
  /\ _build_user_content sample_world "look"
       (Some (["/ws/pic.png"] ++ "/ws/locked.png" :: ["/ws/private/cat.png"]))
     = Raise (PermissionError "/ws/locked.png").
Proof.
  split; [reflexivity|]. split; [right; split; reflexivity|].
  apply (first_media_fault_is_raised sample_world "look" ["/ws/pic.png"]
           ["/ws/private/cat.png"] "/ws/locked.png" (PermissionError "/ws/locked.png")).
  - reflexivity.
  - right. split; reflexivity.
Defined.

(** X3: a media path that passes the guard and whose file can be read yields
    a block of type [image_url] whose URL is [data:<mime>;base64,<payload>],
    with the guessed MIME type and the base64 text of the bytes read; the URL
    starts with [data:image/]. *)
Theorem image_block_data_url :
  forall (w : World) (text path : string) (data : list byte),
    skipped w path = Ok false ->
    read_bytes w path = Ok data ->
    exists mime,
      mimetypes_guess_type w path = Some mime
      /\ _build_user_content w text (Some [path])
         = Ok (VList
                 [VDict [("type", VStr "image_url");
                         ("image_url",
                          VDict [("url", VStr ("data:" +:+ mime +:+ ";base64,"
                                               +:+ b64encode data))])];
                  VDict [("type", VStr "text"); ("text", VStr text)]])
      /\ startswith ("data:" +:+ mime +:+ ";base64," +:+ b64encode data) "data:image/"
         = true.
Proof.
  intros w text path data Hskip Hread.
  pose proof Hskip as Hkeep.
  apply skipped_false_iff in Hkeep as (_ & mime & Hguess & Himg).
  exists mime. split; [exact Hguess|]. split.
  - unfold _build_user_content. cbn [opt_truthy list_truthy negb default from_option id].
    cbn [for_each]. unfold encode_path. rewrite Hskip. cbn [mbind result_bind].
    rewrite Hread, Hguess. reflexivity.
  - unfold startswith in *. apply prefix_split in Himg as [rest ->].
    rewrite <- (string_app_assoc "data:" ("image/" +:+ rest)).
    rewrite <- (string_app_assoc "data:" "image/" rest).
    rewrite string_app_assoc. apply (prefix_app "data:image/").
Qed.

Lemma image_block_data_url_witness :
  skipped sample_world "/ws/pic.png" = Ok false
  /\ read_bytes sample_world "/ws/pic.png" = Ok [x89; x50; x4e; x47]
  /\ exists mime,
       mimetypes_guess_type sample_world "/ws/pic.png" = Some mime
       /\ _build_user_content sample_world "look" (Some ["/ws/pic.png"])
          = Ok (VList
                  [VDict [("type", VStr "image_url");
                          ("image_url",
                           VDict [("url", VStr ("data:" +:+ mime +:+ ";base64,"
                                                +:+ b64encode [x89; x50; x4e; x47]))])];
                   VDict [("type", VStr "text"); ("text", VStr "look")]])
       /\ startswith ("data:" +:+ mime +:+ ";base64," +:+ b64encode [x89; x50; x4e; x47])
            "data:image/"
          = true.
Proof.
  split; [reflexivity|]. split; [reflexivity|].
  apply (image_block_data_url sample_world "look" "/ws/pic.png"); reflexivity.
Defined.

Lemma for_each_encode_path_skip (w : World) (before after : list string)
    (path : string) (images : list value) :
  skipped w path = Ok true ->
  for_each (encode_path w) (before ++ path :: after) images
  = for_each (encode_path w) (before ++ after) images.
Proof.
  intros Hskip. rewrite !for_each_app.
  destruct (for_each (encode_path w) before images) as [images'|]; [|reflexivity].
  assert (Hstep : encode_path w images' path = Ok images')
    by (unfold encode_path; rewrite Hskip; reflexivity).
  cbn [mbind result_bind for_each]. rewrite Hstep. reflexivity.
Qed.

(** X4: a path that the guard skips has no effect wherever it stands in
    [media]: the encoder returns the same content, or raises the same error,
    with and without it. *)
Theorem skipped_path_is_invisible :
  forall (w : World) (text : string) (before after : list string) (path : string),
    skipped w path = Ok true ->
    _build_user_content w text (Some (before ++ path :: after))
    = _build_user_content w text (Some (before ++ after)).
Proof.
  intros w text before after path Hskip. unfold _build_user_content.
  assert (Hne : opt_truthy list_truthy (Some (before ++ path :: after)) = true)
    by (destruct before; reflexivity).
  rewrite Hne. cbn [negb default from_option id].
  rewrite (for_each_encode_path_skip _ _ _ _ _ Hskip).
  destruct (before ++ after) as [|p l] eqn:Hl; reflexivity.
Qed.

Lemma skipped_path_is_invisible_witness :
  skipped sample_world "/ws/notes.txt" = Ok true
  /\ _build_user_content sample_world "look"
       (Some (["/ws/pic.png"] ++ "/ws/notes.txt" :: ["/ws/pic.png"]))
     = _build_user_content sample_world "look"
         (Some (["/ws/pic.png"] ++ ["/ws/pic.png"])).
Proof.
  split; [reflexivity|].
  apply (skipped_path_is_invisible sample_world "look" ["/ws/pic.png"]
           ["/ws/pic.png"] "/ws/notes.txt").
  reflexivity.
Defined.

(** ** Bootstrap loader, continued *)

Lemma join_nonempty (sep x : string) (l : list string) :
  str_truthy x = true -> join sep (x :: l) <> "".
Proof.
  intros Hx. destruct (join_cons sep x l) as (rest & -> & _).
  apply app_nonempty, Hx.
Qed.

Lemma bootstrap_section_nonempty (w : World) (self : ContextBuilder)
    (filename section : string) :
  bootstrap_section w self filename = Some section -> str_truthy section = true.
Proof.
  unfold bootstrap_section.
  destruct (path_exists w (path_join (workspace self) filename)) as [[|]|];
    try discriminate.
  destruct (read_text w (path_join (workspace self) filename)); [|discriminate].
  intros [= <-]. reflexivity.
Qed.

(** X5: for bootstrap paths that are absent or readable, the loader returns
    the empty string exactly when none of the three files exists; an existing
    file, even an empty one, gives a non-empty result because of its
    header. *)
Theorem bootstrap_empty_iff_absent :
  forall (w : World) (self : ContextBuilder),
    forallb (readable_or_absent w self) BOOTSTRAP_FILES = true ->
    (_load_bootstrap_files w self = Ok ""
     <-> existsb (bootstrap_exists w self) BOOTSTRAP_FILES = false).
Proof.
  intros w self Hall. rewrite (load_bootstrap_files_eq _ _ Hall). split.
  - intros Hjoin. apply Ok_inj in Hjoin.
    destruct (omap (bootstrap_section w self) BOOTSTRAP_FILES) as [|s sections] eqn:Hs.
    + apply not_true_is_false. intros Hex. apply existsb_exists in Hex as (f & Hin & Hf).
      pose proof (proj1 (forallb_forall _ _) Hall f Hin) as Hok.
      unfold readable_or_absent, bootstrap_exists in *.
      assert (Hsec : exists s, bootstrap_section w self f = Some s).
      { unfold bootstrap_section.
        destruct (path_exists w (path_join (workspace self) f)) as [[|]|];
          try discriminate.
        destruct (read_text w (path_join (workspace self) f)); [eauto|discriminate]. }
      destruct Hsec as [s Hsec].
      assert (Hmem : s ∈ omap (bootstrap_section w self) BOOTSTRAP_FILES).
      { apply list_elem_of_omap. exists f. split; [|exact Hsec].
        apply list_elem_of_In. exact Hin. }
      rewrite Hs in Hmem. inversion Hmem.
    + exfalso. apply (join_nonempty (nl +:+ nl) s sections); [|exact Hjoin].
      assert (Hmem : s ∈ omap (bootstrap_section w self) BOOTSTRAP_FILES)
        by (rewrite Hs; left).
      apply list_elem_of_omap in Hmem as (f & _ & Hsec).
      exact (bootstrap_section_nonempty _ _ _ _ Hsec).
  - intros Hnone. apply bootstrap_section_absent in Hnone as ->. reflexivity.
Qed.

Lemma bootstrap_empty_iff_absent_witness :
  forallb (readable_or_absent empty_world bare_builder) BOOTSTRAP_FILES = true
  /\ (_load_bootstrap_files empty_world bare_builder = Ok ""
      <-> existsb (bootstrap_exists empty_world bare_builder) BOOTSTRAP_FILES = false).
Proof.
  split; [reflexivity|].
  apply (bootstrap_empty_iff_absent empty_world bare_builder). reflexivity.
Defined.

Lemma load_bootstrap_file_raises (w : World) (self : ContextBuilder)
    (parts : list string) (filename : string) (e : exn) :
  (path_exists w (path_join (workspace self) filename) = Raise e
   \/ path_exists w (path_join (workspace self) filename) = Ok true
      /\ read_text w (path_join (workspace self) filename) = Raise e) ->
  load_bootstrap_file w self parts filename = Raise e.
Proof.
  unfold load_bootstrap_file. intros [-> | [-> ->]]; reflexivity.
Qed.

(** X6: the loader has no error handling.  A bootstrap path whose lookup
    fails, or that exists but cannot be read as UTF-8 text (a directory of
    that name, a file that may not be read, bytes that are not UTF-8), stops
    the build: when the files before it in the fixed order are absent or
    readable, the loader raises the error of that lookup or read, and
    [build_system_prompt] and [build_messages] raise the same error, whatever
    their other arguments. *)
Theorem bootstrap_failure_propagates :
  forall (w : World) (self : ContextBuilder) (before after : list string)
         (filename : string) (e : exn),
    BOOTSTRAP_FILES = before ++ filename :: after ->
    forallb (readable_or_absent w self) before = true ->
    (path_exists w (path_join (workspace self) filename) = Raise e
     \/ path_exists w (path_join (workspace self) filename) = Ok true
        /\ read_text w (path_join (workspace self) filename) = Raise e) ->
    _load_bootstrap_files w self = Raise e
    /\ (forall skill_names, build_system_prompt w self skill_names = Raise e)
    /\ (forall history current_message skill_names media channel chat_id,
          build_messages w self history current_message skill_names media
            channel chat_id = Raise e).
Proof.
  intros w self before after filename e Hfiles Hbefore Hfault.
  assert (Hload : _load_bootstrap_files w self = Raise e).
  { unfold _load_bootstrap_files. rewrite Hfiles, for_each_app.
    rewrite (for_each_load_bootstrap_file _ _ _ _ Hbefore). cbn [mbind result_bind].
    cbn [for_each]. rewrite (load_bootstrap_file_raises _ _ _ _ _ Hfault).
    reflexivity. }
  assert (Hprompt : forall skill_names, build_system_prompt w self skill_names = Raise e).
  { intros skill_names. unfold build_system_prompt.
    rewrite build_system_prompt_parts_eq, Hload. reflexivity. }
  split; [exact Hload|]. split; [exact Hprompt|].
  intros. unfold build_messages. rewrite Hprompt. reflexivity.
Qed.

Lemma bootstrap_failure_propagates_witness :
  BOOTSTRAP_FILES = ["AGENTS.md"] ++ "SOUL.md" :: ["USER.md"]
  /\ forallb (readable_or_absent odd_world soul_builder) ["AGENTS.md"] = true
  /\ (path_exists odd_world (path_join (workspace soul_builder) "SOUL.md")
      = Raise (UnicodeDecodeError "/bin/SOUL.md")
      \/ path_exists odd_world (path_join (workspace soul_builder) "SOUL.md") = Ok true
         /\ read_text odd_world (path_join (workspace soul_builder) "SOUL.md")
            = Raise (UnicodeDecodeError "/bin/SOUL.md"))
  /\ _load_bootstrap_files odd_world soul_builder
     = Raise (UnicodeDecodeError "/bin/SOUL.md").
Proof.
  split; [reflexivity|]. split; [reflexivity|].
  split; [right; split; reflexivity|].
  apply (bootstrap_failure_propagates odd_world soul_builder ["AGENTS.md"] ["USER.md"]
           "SOUL.md" (UnicodeDecodeError "/bin/SOUL.md")).
  - reflexivity.
  - reflexivity.
  - right. split; reflexivity.
Defined.

(** ** Failures of the message list *)

(** X7: [build_messages] raises exactly when [build_system_prompt] raises
    on the same [skill_names], or, the prompt having built, the media encoder
    raises on the current message and [media]; it raises that same error.
    The history, the channel and the chat id never make it fail. *)
Theorem build_messages_raises_iff :
  forall (w : World) (self : ContextBuilder) (history : list dict)
         (current_message : string) (skill_names : option (list string))
         (media : option (list string)) (channel chat_id : option string) (e : exn),
    build_messages w self history current_message skill_names media channel chat_id
    = Raise e
    <-> build_system_prompt w self skill_names = Raise e
        \/ (exists system_prompt,
              build_system_prompt w self skill_names = Ok system_prompt)
           /\ _build_user_content w current_message media = Raise e.
Proof.
  intros. unfold build_messages.
  destruct (build_system_prompt w self skill_names) as [prompt|e'];
    cbn [mbind result_bind].
  - destruct (_build_user_content w current_message media) as [content|e''];
      cbn [mbind result_bind].
    + split; [discriminate | intros [[=] | [_ [=]]]].
    + split.
      * intros [= ->]. right. split; [eexists|]; reflexivity.
      * intros [[=] | [_ [= ->]]]. reflexivity.
  - split.
    + intros [= ->]. left. reflexivity.
    + intros [[= ->] | [[prompt [=]] _]]. reflexivity.
Qed.

(** ** Progressive skill disclosure *)

(** X8: in progressive mode, when the bootstrap files load, the build
    returns; after the identity, bootstrap and memory parts it appends the
    [# Active Skills] section only when there are always-loaded skills and
    their rendered content is non-empty, and then the [# Skills] summary
    section only when the summary is non-empty, in that order. *)
Theorem progressive_skills_sections :
  forall (w : World) (self : ContextBuilder) (skill_names : option (list string))
         (bootstrap : string),
    no_xml_skills self = false ->
    _load_bootstrap_files w self = Ok bootstrap ->
    build_system_prompt_parts w self skill_names
    = Ok (leading_parts w self bootstrap
          ++ match get_always_skills (skills self) with
             | [] => []
             | _ :: _ =>
                 match load_skills_for_context (skills self)
                         (get_always_skills (skills self)) with
                 | EmptyString => []
                 | String _ _ as always_content =>
                     ["# Active Skills" +:+ nl +:+ nl +:+ always_content]
                 end
             end
          ++ match build_skills_summary (skills self) with
             | EmptyString => []
             | String _ _ as skills_summary => [skills_summary_section skills_summary]
             end).
Proof.
  intros w self skill_names bootstrap Hmode Hboot.
  rewrite build_system_prompt_parts_eq, Hboot. unfold skills_parts. rewrite Hmode.
  cbn [mbind result_bind]. unfold progressive_skills_parts. do 2 f_equal.
  destruct (get_always_skills (skills self)) as [|a l]; cbn [list_truthy andb].
  - destruct (build_skills_summary (skills self)); reflexivity.
  - destruct (load_skills_for_context (skills self) (a :: l)),
      (build_skills_summary (skills self)); reflexivity.
Qed.

Lemma progressive_skills_sections_witness :
  no_xml_skills progressive_builder = false
  /\ _load_bootstrap_files empty_world progressive_builder = Ok ""
  /\ build_system_prompt_parts empty_world progressive_builder None
     = Ok [_get_identity empty_world progressive_builder;
           "# Memory" +:+ nl +:+ nl +:+ "likes tea";
           "# Active Skills" +:+ nl +:+ nl +:+ "### core";
           skills_summary_section "<skills/>"].
Proof.
  split; [reflexivity|]. split; [reflexivity|].
  refine (eq_trans (progressive_skills_sections empty_world progressive_builder None
                      "" _ _) _); reflexivity.
Defined.

(** X9: in progressive mode the [skill_names] argument is not read: any two
    values give the same prompt and the same message list. *)
Theorem progressive_ignores_skill_names :
  forall (w : World) (self : ContextBuilder) (names1 names2 : option (list string)),
    no_xml_skills self = false ->
    build_system_prompt w self names1 = build_system_prompt w self names2
    /\ (forall history current_message media channel chat_id,
          build_messages w self history current_message names1 media channel chat_id
          = build_messages w self history current_message names2 media channel chat_id).
Proof.
  intros w self names1 names2 Hmode.
  assert (Hprompt : build_system_prompt w self names1 = build_system_prompt w self names2).
  { unfold build_system_prompt. rewrite !build_system_prompt_parts_eq.
    unfold skills_parts. rewrite Hmode. reflexivity. }
  split; [exact Hprompt|]. intros. unfold build_messages. rewrite Hprompt. reflexivity.
Qed.

Lemma progressive_ignores_skill_names_witness :
  no_xml_skills progressive_builder = false
  /\ build_system_prompt empty_world progressive_builder (Some ["alpha"; "beta"])
     = build_system_prompt empty_world progressive_builder None.
Proof.
  split; [reflexivity|].
  exact (proj1 (progressive_ignores_skill_names empty_world progressive_builder
                  (Some ["alpha"; "beta"]) None eq_refl)).
Defined.

(** X10: in compact mode the Skills collaborator is consulted for its
    catalog only: two loaders with the same catalog give the same prompt,
    whatever their always-loaded skills, rendered contents and summaries, so
    no skill body and no summary reaches the prompt. *)
Theorem compact_reads_catalog_only :
  forall (w : World) (self : ContextBuilder) (loader : SkillsLoader)
         (skill_names : option (list string)),
    no_xml_skills self = true ->
    list_skills loader = list_skills (skills self) ->
    build_system_prompt w (with_skills self loader) skill_names
    = build_system_prompt w self skill_names.
Proof.
  intros w self loader skill_names Hmode Hcatalog.
  unfold build_system_prompt. rewrite !build_system_prompt_parts_eq.
  unfold skills_parts, skill_name_list. cbn [with_skills no_xml_skills skills workspace].
  rewrite Hmode, Hcatalog. reflexivity.
Qed.

Lemma compact_reads_catalog_only_witness :
  no_xml_skills compact_builder = true
  /\ list_skills {| list_skills := list_skills sample_skills;
                    get_always_skills := ["core"];
                    load_skills_for_context := fun _ => "### core";
                    build_skills_summary := "<skills/>" |}
     = list_skills (skills compact_builder)
  /\ build_system_prompt sample_world
       (with_skills compact_builder
          {| list_skills := list_skills sample_skills;
             get_always_skills := ["core"];
             load_skills_for_context := fun _ => "### core";
             build_skills_summary := "<skills/>" |}) None
     = build_system_prompt sample_world compact_builder None.
Proof.
  split; [reflexivity|]. split; [reflexivity|].
  apply (compact_reads_catalog_only sample_world compact_builder); reflexivity.
Defined.

(** ** The parts and the names *)

Lemma skills_parts_nonempty (w : World) (self : ContextBuilder)
    (skill_names : option (list string)) (parts : list string) :
  skills_parts w self skill_names = Ok parts ->
  Forall (fun part => part <> "") parts.
Proof.
  unfold skills_parts. destruct (no_xml_skills self).
  - destruct (skill_name_list self skill_names) as [names|]; [|discriminate].
    cbn [mbind result_bind]. intros [= <-]. unfold compact_skills_parts.
    destruct (sorted_set names) as [|n ns]; constructor; [discriminate|].
    apply Forall_fmap, Forall_forall. intros name _. discriminate.
  - intros [= <-]. unfold progressive_skills_parts. apply Forall_app. split.
    + destruct (list_truthy _ && str_truthy _); repeat constructor. discriminate.
    + destruct (str_truthy _); repeat constructor. discriminate.
Qed.

(** X11: whenever the bootstrap files load and the skills resolve, every part
    that the build joins is non-empty and the first part is the identity
    block: an empty bootstrap or memory text is left out, never joined as an
    empty section. *)
Theorem prompt_parts_are_nonempty :
  forall (w : World) (self : ContextBuilder) (skill_names : option (list string))
         (bootstrap : string) (skills : list string),
    _load_bootstrap_files w self = Ok bootstrap ->
    skills_parts w self skill_names = Ok skills ->
    exists parts,
      build_system_prompt_parts w self skill_names = Ok parts
      /\ build_system_prompt w self skill_names = Ok (join SEPARATOR parts)
      /\ parts !! 0 = Some (_get_identity w self)
      /\ Forall (fun part => part <> "") parts.
Proof.
  intros w self skill_names bootstrap skills Hboot Hskills.
  assert (Hparts : build_system_prompt_parts w self skill_names
                   = Ok (leading_parts w self bootstrap ++ skills)).
  { rewrite build_system_prompt_parts_eq, Hboot, Hskills. reflexivity. }
  eexists. split; [exact Hparts|]. split; [|split].
  - unfold build_system_prompt. rewrite Hparts. reflexivity.
  - reflexivity.
  - apply Forall_app. split; [|exact (skills_parts_nonempty _ _ _ _ Hskills)].
    unfold leading_parts. constructor; [discriminate|]. apply Forall_app. split.
    + destruct bootstrap; repeat constructor. discriminate.
    + destruct (str_truthy _); repeat constructor. discriminate.
Qed.

Lemma prompt_parts_are_nonempty_witness :
  _load_bootstrap_files empty_world progressive_builder = Ok ""
  /\ skills_parts empty_world progressive_builder None
     = Ok ["# Active Skills" +:+ nl +:+ nl +:+ "### core";
           skills_summary_section "<skills/>"]
  /\ exists parts,
       build_system_prompt_parts empty_world progressive_builder None = Ok parts
       /\ build_system_prompt empty_world progressive_builder None
          = Ok (join SEPARATOR parts)
       /\ parts !! 0 = Some (_get_identity empty_world progressive_builder)
       /\ Forall (fun part => part <> "") parts.
Proof.
  split; [reflexivity|]. split; [reflexivity|].
  apply (prompt_parts_are_nonempty empty_world progressive_builder None ""
           ["# Active Skills" +:+ nl +:+ nl +:+ "### core";
            skills_summary_section "<skills/>"]); reflexivity.
Defined.

Lemma sorted_set_ext (names1 names2 : list string) :
  (forall name, name ∈ names1 <-> name ∈ names2) ->
  sorted_set names1 = sorted_set names2.
Proof.
  intros Hsame. apply (Sorted_unique String.le); try apply sorted_set_Sorted.
  apply NoDup_Permutation; try apply sorted_set_NoDup.
  intros name. rewrite !sorted_set_elem_of. apply Hsame.
Qed.

(** X12: the prompt depends on the explicit skill names only as a set: two
    lists with the same members, in any order and with any repetitions, give
    the same prompt. *)
Theorem skill_names_matter_as_a_set :
  forall (w : World) (self : ContextBuilder) (names1 names2 : list string),
    (forall name, name ∈ names1 <-> name ∈ names2) ->
    build_system_prompt w self (Some names1) = build_system_prompt w self (Some names2).
Proof.
  intros w self names1 names2 Hsame.
  unfold build_system_prompt. rewrite !build_system_prompt_parts_eq.
  destruct (_load_bootstrap_files w self) as [bootstrap|e]; [|reflexivity].
  cbn [mbind result_bind]. unfold skills_parts.
  destruct (no_xml_skills self); [|reflexivity].
  rewrite !skill_name_list_eq.
  destruct names1 as [|n1 l1], names2 as [|n2 l2].
  - reflexivity.
  - exfalso. assert (H : n2 ∈ @nil string) by (apply Hsame; left). inversion H.
  - exfalso. assert (H : n1 ∈ @nil string) by (apply Hsame; left). inversion H.
  - cbn [mbind result_bind]. rewrite (sorted_set_ext _ _ Hsame). reflexivity.
Qed.

Lemma skill_names_matter_as_a_set_witness :
  (forall name, name ∈ ["b-skill"; "a-skill"; "a-skill"]
                <-> name ∈ ["a-skill"; "b-skill"])
  /\ build_system_prompt sample_world compact_builder
       (Some ["b-skill"; "a-skill"; "a-skill"])
     = build_system_prompt sample_world compact_builder (Some ["a-skill"; "b-skill"]).
Proof.
  assert (Hsame : forall name, name ∈ ["b-skill"; "a-skill"; "a-skill"]
                               <-> name ∈ ["a-skill"; "b-skill"]).
  { intros name. rewrite !elem_of_cons, !elem_of_nil. tauto. }
  split; [exact Hsame|].
  exact (skill_names_matter_as_a_set sample_world compact_builder _ _ Hsame).
Defined.

(** ** Identity block *)

(** X13: the identity block normalises two readings of the host: a system
    reported as [Darwin] is printed as [macOS], and an empty time zone name is
    printed as [UTC]; the prompt is the same as on a host that reports the
    normalised value. *)
Theorem identity_normalises_host :
  forall (w : World) (self : ContextBuilder) (skill_names : option (list string)),
    _get_identity (with_system w "Darwin") self = _get_identity (with_system w "macOS") self
    /\ _get_identity (with_tzname w "") self = _get_identity (with_tzname w "UTC") self
    /\ build_system_prompt (with_system w "Darwin") self skill_names
       = build_system_prompt (with_system w "macOS") self skill_names
    /\ build_system_prompt (with_tzname w "") self skill_names
       = build_system_prompt (with_tzname w "UTC") self skill_names.
Proof.
  intros w self skill_names.
  split; [reflexivity|]. split; [reflexivity|].
  unfold build_system_prompt. rewrite !build_system_prompt_parts_eq.
  split; reflexivity.
Qed.

(** ** Base64 payload *)

Lemma list_ind3 {A : Type} (P : list A -> Prop) :
  P [] -> (forall a, P [a]) -> (forall a b, P [a; b]) ->
  (forall a b c l, P l -> P (a :: b :: c :: l)) ->
  forall l, P l.
Proof.
  intros H0 H1 H2 H3.
  assert (H : forall l, P l /\ (forall a, P (a :: l)) /\ (forall a b, P (a :: b :: l))).
  { induction l as [|x l (IH0 & IH1 & IH2)]; [auto|].
    split; [apply IH1|]. split; [intros a; apply IH2|].
    intros a b. apply H3, IH0. }
  intros l. apply H.
Qed.

Lemma b64_char_in_charset (n : N) : In (b64_char n) b64_charset.
Proof.
  unfold b64_char, b64_charset.
  generalize (N.to_nat (N.land n 63)). intros i.
  apply in_or_app.
  destruct (String.get i b64_alphabet) as [c|] eqn:Hget; [left | right; left; reflexivity].
  revert i Hget. generalize b64_alphabet.
  induction s as [|c' s IH]; intros i Hget; [discriminate|].
  destruct i as [|i]; cbn in Hget.
  - injection Hget as ->. left. reflexivity.
  - right. exact (IH i Hget).
Qed.

Lemma b64_pad_in_charset : In b64_pad b64_charset.
Proof. apply in_or_app. right. left. reflexivity. Qed.

(** X15: the base64 payload of an image URL is well-formed: its length is
    four characters for every started group of three bytes, and it holds
    only characters of the base64 alphabet and the padding [=]. *)
Theorem b64encode_well_formed :
  forall data : list byte,
    String.length (b64encode data) = 4 * ((length data + 2) / 3)
    /\ Forall (fun c => In c b64_charset) (list_ascii_of_string (b64encode data)).
Proof.
  induction data as [| a | a b | a b c data [IHlen IHchars]] using list_ind3.
  - split; [reflexivity | constructor].
  - split; [reflexivity|].
    cbn [b64encode list_ascii_of_string].
    constructor; [apply b64_char_in_charset|].
    constructor; [apply b64_char_in_charset|].
    constructor; [apply b64_pad_in_charset|].
    constructor; [apply b64_pad_in_charset|]. constructor.
  - split; [reflexivity|].
    cbn [b64encode list_ascii_of_string].
    constructor; [apply b64_char_in_charset|].
    constructor; [apply b64_char_in_charset|].
    constructor; [apply b64_char_in_charset|].
    constructor; [apply b64_pad_in_charset|]. constructor.
  - split.
    + cbn [b64encode String.length length]. rewrite IHlen.
      replace (S (S (S (length data))) + 2) with ((length data + 2) + 1 * 3) by lia.
      rewrite Nat.div_add by discriminate. lia.
    + cbn [b64encode list_ascii_of_string].
      constructor; [apply b64_char_in_charset|].
      constructor; [apply b64_char_in_charset|].
      constructor; [apply b64_char_in_charset|].
      constructor; [apply b64_char_in_charset|]. exact IHchars.
Qed.

(** ** Fields of an assistant message *)

(** X16: an assistant message holds no other field than [role], [content],
    [tool_calls] and [reasoning_content], in this order, the last two only
    for a non-empty argument; an absent or empty [tool_calls] or
    [reasoning_content] is left out, never stored as an empty value. *)
Theorem assistant_message_keys :
  forall (messages : list dict) (content : option string)
         (tool_calls : option (list value)) (reasoning_content : option string),
  exists msg,
    last (add_assistant_message messages content tool_calls reasoning_content) = Some msg
    /\ keys msg
       = ["role"; "content"]
         ++ (if opt_truthy list_truthy tool_calls then ["tool_calls"] else [])
         ++ (if opt_truthy str_truthy reasoning_content then ["reasoning_content"] else [])
    /\ (forall key val, dict_get key msg = Some val ->
                        val <> VNone /\ val <> VStr "" /\ val <> VList []
                        \/ key = "content").
Proof.
  intros messages content tool_calls reasoning_content.
  unfold add_assistant_message. rewrite last_snoc. eexists. split; [reflexivity|].
  split.
  - destruct tool_calls as [[|? ?]|], reasoning_content as [[|? ?]|]; reflexivity.
  - intros key val.
    destruct content as [[|? ?]|], tool_calls as [[|? ?]|],
      reasoning_content as [[|? ?]|]; cbn;
      repeat match goal with
             | |- context [String.eqb key ?k] =>
                 destruct (String.eqb key k) eqn:?;
                 [ intros [= <-];
                   first [ left; repeat split; discriminate
                         | right; apply String.eqb_eq; assumption ]
                 | ]
             end;
      discriminate.
Qed.

(** ** The message list, continued *)

Lemma add_turns_snoc_all (turns : list turn) (messages : list dict) :
  exists added, add_turns messages turns = messages ++ added
                /\ length added = length turns.
Proof.
  revert messages. induction turns as [|t turns IH]; intros messages.
  - exists []. rewrite app_nil_r. split; reflexivity.
  - destruct (add_turn_snoc messages t) as (msg & Hstep & _).
    destruct (IH (add_turn messages t)) as (added & Heq & Hlen).
    exists (msg :: added). unfold add_turns in *. cbn [foldl length].
    rewrite Heq, Hstep, <- app_assoc, Hlen. split; reflexivity.
Qed.

(** X17: the user message that ends the list carries the current message as
    plain text when no media path survives, and otherwise the list of the
    image blocks of the surviving paths followed by the text block of the
    current message; the system message that starts it always carries plain
    text. *)
Theorem build_messages_user_content :
  forall (w : World) (self : ContextBuilder) (history : list dict)
         (current_message : string) (skill_names : option (list string))
         (media : option (list string)) (channel chat_id : option string)
         (system_prompt : string),
    build_system_prompt w self skill_names = Ok system_prompt ->
    encodable w (default [] media) = true ->
    exists messages text,
      build_messages w self history current_message skill_names media channel chat_id
      = Ok messages
      /\ messages !! 0 = Some [("role", VStr "system"); ("content", VStr text)]
      /\ last messages
         = Some [("role", VStr "user");
                 ("content",
                  match surviving w (default [] media) with
                  | [] => VStr current_message
                  | paths =>
                      VList (((fun path =>
                                 VDict [("type", VStr "image_url");
                                        ("image_url",
                                         VDict [("url",
                                                 VStr ("data:"
                                                       +:+ default ""
                                                             (mimetypes_guess_type w path)
                                                       +:+ ";base64,"
                                                       +:+ b64encode (file_data w path)))])])
                                <$> paths)
                             ++ [VDict [("type", VStr "text");
                                        ("text", VStr current_message)]])
                  end)].
Proof.
  intros w self history current_message skill_names media channel chat_id
    system_prompt Hprompt Hmedia.
  destruct (build_messages_eq w self history current_message skill_names media
              channel chat_id system_prompt Hprompt Hmedia) as (content & Hcontent & Hbuild).
  eexists _, _. split; [exact Hbuild|]. split; [reflexivity|].
  rewrite app_assoc, last_snoc.
  rewrite (build_user_content_eq _ _ _ Hmedia) in Hcontent.
  apply Ok_inj in Hcontent. subst content.
  destruct (surviving w (default [] media)); reflexivity.
Qed.

Lemma build_messages_user_content_witness :
  build_system_prompt sample_world bare_builder None
  = Ok (join SEPARATOR
          [_get_identity sample_world bare_builder;
           "## AGENTS.md" +:+ nl +:+ nl +:+ "Be kind." +:+ nl +:+ nl
           +:+ "## USER.md" +:+ nl +:+ nl +:+ "Ada"])
  /\ encodable sample_world (default [] (Some ["/nope"; "/ws/pic.png"])) = true
  /\ exists messages text,
       build_messages sample_world bare_builder [] "look" None
         (Some ["/nope"; "/ws/pic.png"]) None None
       = Ok messages
       /\ messages !! 0 = Some [("role", VStr "system"); ("content", VStr text)]
       /\ last messages
          = Some [("role", VStr "user");
                  ("content",
                   VList [VDict [("type", VStr "image_url");
                                 ("image_url",
                                  VDict [("url",
                                          VStr "data:image/png;base64,iVBORw==")])];
                          VDict [("type", VStr "text"); ("text", VStr "look")]])].
Proof.
  split; [vm_compute; reflexivity|]. split; [vm_compute; reflexivity|].
  destruct (build_messages_user_content sample_world bare_builder [] "look" None
              (Some ["/nope"; "/ws/pic.png"]) None None
              (join SEPARATOR
                 [_get_identity sample_world bare_builder;
                  "## AGENTS.md" +:+ nl +:+ nl +:+ "Be kind." +:+ nl +:+ nl
                  +:+ "## USER.md" +:+ nl +:+ nl +:+ "Ada"]))
    as (messages & text & Hbuild & Hfirst & Hlast).
  - vm_compute; reflexivity.
  - vm_compute; reflexivity.
  - exists messages, text. split; [exact Hbuild|]. split; [exact Hfirst|].
    rewrite Hlast. vm_compute; reflexivity.
Defined.

(** X18: a conversation keeps what [build_messages] built: after any run of
    assistant turns and tool results on its result, the system message is
    still first, the history still follows it unchanged, and the list has
    grown by one message per turn. *)
Theorem conversation_keeps_built_messages :
  forall (w : World) (self : ContextBuilder) (history : list dict)
         (current_message : string) (skill_names : option (list string))
         (media : option (list string)) (channel chat_id : option string)
         (system_prompt : string) (turns : list turn),
    build_system_prompt w self skill_names = Ok system_prompt ->
    encodable w (default [] media) = true ->
    exists messages text,
      build_messages w self history current_message skill_names media channel chat_id
      = Ok messages
      /\ add_turns messages turns !! 0
         = Some [("role", VStr "system"); ("content", VStr text)]
      /\ (forall i message, history !! i = Some message ->
                            add_turns messages turns !! (S i) = Some message)
      /\ length (add_turns messages turns) = length history + 2 + length turns.
Proof.
  intros w self history current_message skill_names media channel chat_id
    system_prompt turns Hprompt Hmedia.
  destruct (build_messages_eq w self history current_message skill_names media
              channel chat_id system_prompt Hprompt Hmedia) as (content & _ & Hbuild).
  eexists _, _. split; [exact Hbuild|].
  destruct (add_turns_snoc_all turns
              ([system_message
                  (if opt_truthy str_truthy channel && opt_truthy str_truthy chat_id
                   then system_prompt
                        +:+ session_footer (default "" channel) (default "" chat_id)
                   else system_prompt)] ++ history ++ [user_message content]))
    as (added & -> & Hlen).
  split; [reflexivity|]. split.
  - intros i message Hi. cbn [app lookup list_lookup].
    rewrite <- app_assoc. apply lookup_app_l_Some. exact Hi.
  - rewrite !length_app. cbn [length]. lia.
Qed.

Lemma conversation_keeps_built_messages_witness :
  build_system_prompt empty_world bare_builder None
  = Ok (_get_identity empty_world bare_builder)
  /\ encodable empty_world (default [] None) = true
  /\ exists messages text,
       build_messages empty_world bare_builder
         [[("role", VStr "user"); ("content", VStr "hi")]] "bye" None None None None
       = Ok messages
       /\ add_turns messages
            [AssistantTurn None (Some [VDict [("id", VStr "call_1")]]) None;
             ToolResult "call_1" "read_file" ""] !! 0
          = Some [("role", VStr "system"); ("content", VStr text)]
       /\ (forall i message,
             [[("role", VStr "user"); ("content", VStr "hi")]] !! i = Some message ->
             add_turns messages
               [AssistantTurn None (Some [VDict [("id", VStr "call_1")]]) None;
                ToolResult "call_1" "read_file" ""] !! (S i) = Some message)
       /\ length (add_turns messages
                    [AssistantTurn None (Some [VDict [("id", VStr "call_1")]]) None;
                     ToolResult "call_1" "read_file" ""])
          = 1 + 2 + 2.
Proof.
  split; [reflexivity|]. split; [reflexivity|].
  apply (conversation_keeps_built_messages empty_world bare_builder
           [[("role", VStr "user"); ("content", VStr "hi")]] "bye" None None None None
           (_get_identity empty_world bare_builder)
           [AssistantTurn None (Some [VDict [("id", VStr "call_1")]]) None;
            ToolResult "call_1" "read_file" ""]);
    reflexivity.
Defined.
